(** * CloudLog Analyst: credential resolution and log normalisation

    A shallow embedding of the two pieces of logic of the dashboard:

    - [SecretsContext] (the React provider holding the project id, the bearer
      token, the environment-managed flag and the session storage keys), and
    - [GeminiService] (services/geminiService.ts: the three completion calls
      and the Cloud Logging fetch with its entry mapping).

    JavaScript values are modelled by the type [JS.value]; a promise that
    rejects and a synchronous [throw] are both the [Throw] case of
    [JS.result].  [console.log], [console.warn] and [console.error] have no
    effect on any value the program returns and are left out.  TypeScript
    types are erased at run time, so [data as LogEntry[]] is the identity. *)

From Stdlib Require Import Floats Ascii String.
From stdpp Require Import gmap strings list pretty.

Set Warnings "-register-all".

Local Open Scope string_scope.

(** ** JavaScript values and the operators the program uses *)

Module JS.

(** Numbers are IEEE doubles, as in the language.  [VFun] stands for a
    built-in function object reached through a prototype. *)
Inductive value : Type :=
| VUndefined
| VNull
| VBool (b : bool)
| VNum (x : float)
| VStr (s : string)
| VArr (xs : list value)
| VObj (props : list (string * value))
| VFun (name : string).

Inductive exn : Type :=
| TypeError
| SyntaxError
| Error (message : string)
| Rejected (reason : string).

Inductive result (A : Type) : Type :=
| Ok (a : A)
| Throw (e : exn).
Arguments Ok {A} a.
Arguments Throw {A} e.

Definition bind {A B} (r : result A) (k : A -> result B) : result B :=
  match r with
  | Ok a => k a
  | Throw e => Throw e
  end.

(** [try { body } catch (e) { handler e }] *)
Definition try_catch {A} (body : result A) (handler : exn -> result A) : result A :=
  match body with
  | Ok a => Ok a
  | Throw e => handler e
  end.

Fixpoint mapM {A B} (f : A -> result B) (xs : list A) : result (list B) :=
  match xs with
  | [] => Ok []
  | x :: rest =>
      bind (f x) (fun y => bind (mapM f rest) (fun ys => Ok (y :: ys)))
  end.

(** ToBoolean *)
Definition truthy (v : value) : bool :=
  match v with
  | VUndefined | VNull => false
  | VBool b => b
  | VNum x => negb (PrimFloat.is_zero x || PrimFloat.is_nan x)
  | VStr s => negb (String.eqb s "")
  | VArr _ | VObj _ | VFun _ => true
  end.

Definition nullish (v : value) : bool :=
  match v with
  | VUndefined | VNull => true
  | _ => false
  end.

Fixpoint assoc (k : string) (props : list (string * value)) : option value :=
  match props with
  | [] => None
  | (k', v) :: rest => if String.eqb k k' then Some v else assoc k rest
  end.

(** The value of [v.k] for [v] neither [null] nor [undefined].  The program
    reads twelve property names (entries, textPayload, jsonPayload, resource,
    labels, module_id, service_name, cluster_name, type, timestamp, severity,
    trace).  Of these only [entries] is inherited from a prototype, that of
    arrays; the wrappers of strings, numbers and booleans and
    [Object.prototype] define none of them.  Objects come from [JSON.parse],
    which leaves one binding per key. *)
Definition lookup_prop (v : value) (k : string) : value :=
  match v with
  | VObj props => default VUndefined (assoc k props)
  | VArr _ => if String.eqb k "entries" then VFun "Array.prototype.entries" else VUndefined
  | _ => VUndefined
  end.

(** [v.k]: a TypeError on [null] and [undefined]. *)
Definition member (v : value) (k : string) : result value :=
  if nullish v then Throw TypeError else Ok (lookup_prop v k).

(** [v?.k] *)
Definition opt_member (v : value) (k : string) : value :=
  if nullish v then VUndefined else lookup_prop v k.

(** [a || b], with [b] evaluated lazily by the caller. *)
Definition or_else (a b : value) : value :=
  if truthy a then a else b.

(** [JSON.parse] and [JSON.stringify] belong to the runtime, not to the
    repository: the development is parametric in them.  [JSON_parse s = None]
    is the SyntaxError that [JSON.parse] throws. *)
Class JSON : Type := {
  JSON_parse : string -> option value;
  JSON_stringify : value -> string
}.

Definition parse `{JSON} (s : string) : result value :=
  match JSON_parse s with
  | Some v => Ok v
  | None => Throw SyntaxError
  end.

Definition nl : string := String "010"%char "".
Definition dquote : string := String "034"%char "".

(** A template literal, given line by line. *)
Definition template (lines : list string) : string := String.concat nl lines.

End JS.

#[global] Instance result_bind : MBind JS.result :=
  fun A B k r => JS.bind r k.

(** ** contexts/SecretsContext.tsx *)

Module SecretsContext.

(** The three places [getEnvValue] reads.  [process.env] is typed as an object
    by the source and read without a guard; [import.meta] and [window] are
    guarded with [typeof], and their [env] / [_env_] members may be missing. *)
Record ImportMeta := { meta_env : option (gmap string string) }.
Record Window := { _env_ : option (gmap string string) }.

Record Environment := {
  process_env : gmap string string;
  import_meta : option ImportMeta;
  window : option Window
}.

(** Truthiness of [obj[key]] for a string-valued object: defined and not
    the empty string. *)
Definition truthy_str (o : option string) : bool :=
  match o with
  | Some s => negb (String.eqb s "")
  | None => false
  end.

(** State of the provider: the three [useState] cells and the tab's
    [sessionStorage]. *)
Record State := {
  projectId : string;
  accessToken : string;
  isEnvManaged : bool;
  sessionStorage : gmap string string
}.

Definition initial (storage : gmap string string) : State :=
  {| projectId := ""; accessToken := ""; isEnvManaged := false;
     sessionStorage := storage |}.

Definition getEnvValue (env : Environment) (key : string) : option string :=
  (* 1. process.env *)
  if truthy_str (process_env env !! key) then process_env env !! key
  else
    (* 2. import.meta.env *)
    let from_meta :=
      match import_meta env with
      | Some meta =>
          match meta_env meta with
          | Some e => if truthy_str (e !! key) then e !! key else None
          | None => None
          end
      | None => None
      end in
    match from_meta with
    | Some v => Some v
    | None =>
        (* 3. window._env_ *)
        match window env with
        | Some w =>
            match _env_ w with
            | Some e => if truthy_str (e !! key) then e !! key else None
            | None => None
            end
        | None => None
        end
    end.

Definition pidKeys : list string :=
  ["GCP_PROJECT_ID"; "VITE_GCP_PROJECT_ID"; "REACT_APP_GCP_PROJECT_ID"].
Definition tokenKeys : list string :=
  ["GCP_ACCESS_TOKEN"; "VITE_GCP_ACCESS_TOKEN"; "REACT_APP_GCP_ACCESS_TOKEN"].

(** [for (const key of keys) { const val = getEnvValue(key);
      if (val) { found = val; break; } }] *)
Fixpoint scan (env : Environment) (keys : list string) : option string :=
  match keys with
  | [] => None
  | key :: rest =>
      let val := getEnvValue env key in
      if truthy_str val then val else scan env rest
  end.

Definition loadFromEnv (env : Environment) (st : State) : bool * State :=
  let foundPid := scan env pidKeys in
  let foundToken := scan env tokenKeys in
  match foundPid, foundToken with
  | Some pid, Some token =>
      if truthy_str foundPid && truthy_str foundToken then
        (true,
         {| projectId := pid;
            accessToken := token;
            isEnvManaged := true;
            sessionStorage :=
              <["gcp_access_token" := token]>
                (<["gcp_project_id" := pid]> (sessionStorage st)) |})
      else (false, st)
  | _, _ => (false, st)
  end.

(** The mount effect. *)
Definition initialize (env : Environment) (st : State) : State :=
  let '(loaded, st1) := loadFromEnv env st in
  if loaded then st1
  else
    let storedProject := sessionStorage st1 !! "gcp_project_id" in
    let storedToken := sessionStorage st1 !! "gcp_access_token" in
    let st2 :=
      match storedProject with
      | Some p =>
          if truthy_str storedProject then
            {| projectId := p; accessToken := accessToken st1;
               isEnvManaged := isEnvManaged st1;
               sessionStorage := sessionStorage st1 |}
          else st1
      | None => st1
      end in
    match storedToken with
    | Some t =>
        if truthy_str storedToken then
          {| projectId := projectId st2; accessToken := t;
             isEnvManaged := isEnvManaged st2;
             sessionStorage := sessionStorage st2 |}
        else st2
    | None => st2
    end.

Definition setSecrets (pid token : string) (st : State) : State :=
  {| projectId := pid;
     accessToken := token;
     isEnvManaged := false;
     sessionStorage :=
       <["gcp_access_token" := token]>
         (<["gcp_project_id" := pid]> (sessionStorage st)) |}.

Definition clearSecrets (st : State) : State :=
  {| projectId := "";
     accessToken := "";
     isEnvManaged := false;
     sessionStorage :=
       delete "gcp_access_token" (delete "gcp_project_id" (sessionStorage st)) |}.

Definition hasSecrets (st : State) : bool :=
  negb (String.eqb (projectId st) "") && negb (String.eqb (accessToken st) "").

End SecretsContext.

(** ** types.ts *)

Module Types.

(** [enum Severity]: each member's value is its own name. *)
Definition Severity : list string :=
  ["DEBUG"; "INFO"; "NOTICE"; "WARNING"; "ERROR"; "CRITICAL"; "ALERT"; "EMERGENCY"].

Definition is_Severity (v : JS.value) : bool :=
  match v with
  | JS.VStr s => bool_decide (s ∈ Severity)
  | _ => false
  end.

Definition is_string (v : JS.value) : bool :=
  match v with
  | JS.VStr _ => true
  | _ => false
  end.

End Types.

(** ** services/geminiService.ts *)

Module GeminiService.
Import JS.

(** *** The two external services *)

(** The members of [Type] of the completion SDK that the schemas use. *)
Inductive GenAIType := STRING | NUMBER | ARRAY | OBJECT.

Inductive Schema : Type :=
  MkSchema {
    type : GenAIType;
    description : option string;
    items : option Schema;
    properties : list (string * Schema);
    required : list string
  }.

Record GenerateContentConfig := {
  responseMimeType : string;
  responseSchema : Schema
}.

Record GenerateContentParameters := {
  model : string;
  contents : string;
  config : option GenerateContentConfig
}.

(** [response.text] is [string | undefined]. *)
Record GenerateContentResponse := { text : option string }.

(** The client returned by [getAI()]; a rejected promise is [Throw]. *)
Record GoogleGenAI := {
  generateContent : GenerateContentParameters -> result GenerateContentResponse
}.

Record RequestInit := {
  method : string;
  headers : list (string * string);
  body : string
}.

(** A settled [fetch] response: its status and its body text. *)
Record Response := { status : N; responseText : string }.

(** [Response.ok]: the status is in the range 200-299. *)
Definition ok (r : Response) : bool :=
  (200 <=? status r)%N && (status r <=? 299)%N.

Definition Fetch : Type := string -> RequestInit -> result Response.

(** [!response.text] *)
Definition no_text (response : GenerateContentResponse) : bool :=
  negb (SecretsContext.truthy_str (text response)).

Definition leaf (t : GenAIType) : Schema := MkSchema t None None [] [].
Definition described (t : GenAIType) (d : string) : Schema :=
  MkSchema t (Some d) None [] [].
Definition array_of (item : Schema) (d : option string) : Schema :=
  MkSchema ARRAY d (Some item) [] [].
Definition object_of (props : list (string * Schema)) (req : list string) : Schema :=
  MkSchema OBJECT None None props req.

(** *** generateDemoLogs *)

Definition demoPrompt : string :=
  template
    [ "";
      "    Generate a realistic block of 25-30 raw log lines from a hypothetical Google Cloud environment.";
      "    Include a mix of services like 'gke-cluster-1', 'cloud-sql-db', 'loadbalancer-frontend', and 'backend-api'.";
      "    Include timestamps (recent ISO dates).";
      "    Include a mix of severities: INFO, WARNING, and at least 3-4 ERROR/CRITICAL logs related to a database connection timeout or high latency.";
      "    Format them as standard text logs (not JSON), similar to what one sees in a terminal or Stackdriver console.";
      "  " ].

Definition generateDemoLogs (ai : GoogleGenAI) : result (option string) :=
  response ← generateContent ai
    {| model := "gemini-2.5-flash"; contents := demoPrompt; config := None |};
  Ok (text response).

(** *** parseLogs *)

Definition parseLogs_request (rawLogs : string) : GenerateContentParameters :=
  {| model := "gemini-2.5-flash";
     contents :=
       template
         [ "";
           "      Parse the following raw log text into a structured JSON array.";
           "      Extract the timestamp (convert to ISO string), severity (uppercase), service name, and the log message.";
           "      If severity is missing, infer it from the message (default to INFO).";
           "      ";
           "      Raw Logs:";
           "      " ++ rawLogs;
           "    " ];
     config := Some
       {| responseMimeType := "application/json";
          responseSchema :=
            array_of
              (object_of
                 [ ("timestamp", leaf STRING);
                   ("severity", leaf STRING);
                   ("service", leaf STRING);
                   ("message", leaf STRING) ]
                 ["timestamp"; "severity"; "service"; "message"])
              None |} |}.

Definition parseLogs `{JSON} (ai : GoogleGenAI) (rawLogs : string) : result value :=
  response ← generateContent ai (parseLogs_request rawLogs);
  if no_text response then Ok (VArr [])
  else
    try_catch
      (data ← parse (default "" (text response));
       Ok data)
      (fun e => Ok (VArr [])).

(** *** fetchGCPLogs *)

Definition entries_list_url : string :=
  "https://logging.googleapis.com/v2/entries:list".

Definition fetchGCPLogs_init `{JSON} (projectId accessToken : string) : RequestInit :=
  {| method := "POST";
     headers :=
       [ ("Authorization", "Bearer " ++ accessToken);
         ("Content-Type", "application/json") ];
     body :=
       JSON_stringify
         (VObj [ ("resourceNames", VArr [VStr ("projects/" ++ projectId)]);
                 ("orderBy", VStr "timestamp desc");
                 ("pageSize", VNum 50%float) ]) |}.

(** The callback given to [data.entries.map]. *)
Definition mapEntry `{JSON} (entry : value) : result value :=
  textPayload ← member entry "textPayload";
  message ←
    (if truthy textPayload then Ok textPayload
     else
       jsonPayload ← member entry "jsonPayload";
       if truthy jsonPayload then Ok (VStr (JSON_stringify jsonPayload))
       else Ok (VStr "No message content"));
  resource ← member entry "resource";
  let labels := opt_member resource "labels" in
  let service :=
    or_else (opt_member labels "module_id")
      (or_else (opt_member labels "service_name")
         (or_else (opt_member labels "cluster_name")
            (or_else (opt_member resource "type")
               (VStr "gcp-service")))) in
  timestamp ← member entry "timestamp";
  severity ← member entry "severity";
  trace ← member entry "trace";
  Ok (VObj [ ("timestamp", timestamp);
             ("severity", or_else severity (VStr "INFO"));
             ("service", service);
             ("message", message);
             ("traceId", trace) ]).

Definition fetchGCPLogs `{JSON} (fetch : Fetch) (projectId accessToken : string)
  : result (list value) :=
  try_catch
    (response ← fetch entries_list_url (fetchGCPLogs_init projectId accessToken);
     _ ← (if negb (ok response) then
             let errText := responseText response in
             Throw (Error ("GCP API Error (" ++ pretty (status response) ++ "): " ++ errText))
           else Ok tt);
     data ← parse (responseText response);
     entries ← member data "entries";
     if negb (truthy entries) then Ok []
     else
       match entries with
       | VArr xs => mapM mapEntry xs
       | _ => Throw TypeError
       end)
    (fun error => Throw error).

(** *** generateReport *)

Definition generateReport_request `{JSON} (logs : list value) : GenerateContentParameters :=
  let logContext := JSON_stringify (VArr (take 100 logs)) in
  {| model := "gemini-2.5-flash";
     contents :=
       template
         [ "";
           "      Analyze these structured logs and provide a system health report.";
           "      ";
           "      Logs:";
           "      " ++ logContext;
           "    " ];
     config := Some
       {| responseMimeType := "application/json";
          responseSchema :=
            object_of
              [ ("overview",
                 described STRING "A brief paragraph summarizing the system state.");
                ("criticalIssues",
                 array_of (leaf STRING)
                   (Some "List of critical errors or patterns detected."));
                ("recommendations",
                 array_of (leaf STRING)
                   (Some "Actionable steps to resolve issues.")) ]
              ["overview"; "criticalIssues"; "recommendations"] |} |}.

Definition fallbackSummary (overview : string) : value :=
  VObj [ ("overview", VStr overview);
         ("criticalIssues", VArr []);
         ("recommendations", VArr []) ].

Definition generateReport `{JSON} (ai : GoogleGenAI) (logs : list value) : result value :=
  response ← generateContent ai (generateReport_request logs);
  if no_text response then Ok (fallbackSummary "Could not generate report.")
  else
    try_catch
      (parse (default "" (text response)))
      (fun e => Ok (fallbackSummary "Error parsing AI response.")).

(** *** generateCostReport *)

Inductive ProjectScale := hobby | startup | enterprise.

Definition promptContext (scale : ProjectScale) : string :=
  match scale with
  | hobby =>
      template
        [ "";
          "      This is a small personal/developer project (like a free tier or minimal usage setup). ";
          "      Total monthly costs should be very low (e.g., between €0.00 and €10.00).";
          "      Services should be things like Cloud Run (low invocation), Cloud Storage (small), or free tier Compute Engine.";
          "      Currency should be EUR (€).";
          "      FinOps score should be high (4-5) as waste is low.";
          "    " ]
  | startup =>
      template
        [ "";
          "      This is a startup production environment. ";
          "      Total monthly costs should be moderate (e.g., €100 - €500).";
          "      Stack includes Managed SQL, Load Balancers, and a few VMs.";
          "      Currency EUR (€).";
          "    " ]
  | enterprise =>
      template
        [ "";
          "      This is a large enterprise environment.";
          "      Total monthly costs are high (€2,000+).";
          "      Complex stack with GKE, Dataflow, BigQuery.";
          "      Currency EUR (€).";
          "    " ]
  end.

Definition generateCostReport_request (projectId : string) (scale : ProjectScale)
  : GenerateContentParameters :=
  {| model := "gemini-2.5-flash";
     contents :=
       template
         [ "";
           "      Generate a simulated monthly cost report for Google Cloud Project "
             ++ dquote ++ projectId ++ dquote ++ ".";
           "      " ++ promptContext scale;
           "      ";
           "      Requirements:";
           "      1. Create daily cost data for the last 14 days. For 'hobby', these should be tiny amounts (e.g. 0.01, 0.05).";
           "      2. Create a service breakdown.";
           "      3. Provide a 'finOpsScore' from 0 (poor) to 5 (excellent).";
           "      4. Provide AI analysis and optimization tips relevant to this scale.";
           "    " ];
     config := Some
       {| responseMimeType := "application/json";
          responseSchema :=
            object_of
              [ ("totalMonthToDate", leaf NUMBER);
                ("projectedEndOfMonth", leaf NUMBER);
                ("dailyTrend",
                 array_of
                   (object_of
                      [ ("date", leaf STRING);
                        ("cost", leaf NUMBER);
                        ("currency", leaf STRING) ] [])
                   None);
                ("serviceBreakdown",
                 array_of
                   (object_of
                      [ ("service", leaf STRING);
                        ("cost", leaf NUMBER) ] [])
                   None);
                ("aiAnalysis", leaf STRING);
                ("optimizationTips", array_of (leaf STRING) None);
                ("finOpsScore",
                 described NUMBER "Score from 0 to 5 reflecting cost efficiency") ]
              [ "totalMonthToDate"; "projectedEndOfMonth"; "dailyTrend";
                "serviceBreakdown"; "aiAnalysis"; "optimizationTips" ] |} |}.

(** [scale] is an optional parameter with default ['hobby']. *)
Definition generateCostReport `{JSON} (ai : GoogleGenAI) (projectId : string)
    (scale : option ProjectScale) : result value :=
  let scale := default hobby scale in
  response ← generateContent ai (generateCostReport_request projectId scale);
  if no_text response then Throw (Error "Failed to generate cost report")
  else parse (default "" (text response)).

End GeminiService.

(** ** App.tsx *)

Module App.
Import JS GeminiService.

Inductive Page := upload | dashboard | costs.

(** The [useState] cells of [AppContent], and the messages shown with
    [alert], oldest first.  [logs] holds whatever [parseLogs] returned. *)
Record State := {
  logs : value;
  report : value;
  isProcessing : bool;
  currentPage : Page;
  showSecrets : bool;
  alerts : list string
}.

Definition initial : State :=
  {| logs := VArr []; report := VNull; isProcessing := false;
     currentPage := upload; showSecrets := false; alerts := [] |}.

Definition setLogs (v : value) (st : State) : State :=
  {| logs := v; report := report st; isProcessing := isProcessing st;
     currentPage := currentPage st; showSecrets := showSecrets st;
     alerts := alerts st |}.
Definition setReport (v : value) (st : State) : State :=
  {| logs := logs st; report := v; isProcessing := isProcessing st;
     currentPage := currentPage st; showSecrets := showSecrets st;
     alerts := alerts st |}.
Definition setIsProcessing (b : bool) (st : State) : State :=
  {| logs := logs st; report := report st; isProcessing := b;
     currentPage := currentPage st; showSecrets := showSecrets st;
     alerts := alerts st |}.
Definition setCurrentPage (p : Page) (st : State) : State :=
  {| logs := logs st; report := report st; isProcessing := isProcessing st;
     currentPage := p; showSecrets := showSecrets st;
     alerts := alerts st |}.
Definition alert (message : string) (st : State) : State :=
  {| logs := logs st; report := report st; isProcessing := isProcessing st;
     currentPage := currentPage st; showSecrets := showSecrets st;
     alerts := (alerts st ++ [message])%list |}.

(** The request of [generateReport] for a given [logContext], and what the
    function makes of the response. *)
Definition reportRequest (logContext : string) : GenerateContentParameters :=
  {| model := "gemini-2.5-flash";
     contents :=
       template
         [ "";
           "      Analyze these structured logs and provide a system health report.";
           "      ";
           "      Logs:";
           "      " ++ logContext;
           "    " ];
     config := Some
       {| responseMimeType := "application/json";
          responseSchema :=
            object_of
              [ ("overview",
                 described STRING "A brief paragraph summarizing the system state.");
                ("criticalIssues",
                 array_of (leaf STRING)
                   (Some "List of critical errors or patterns detected."));
                ("recommendations",
                 array_of (leaf STRING)
                   (Some "Actionable steps to resolve issues.")) ]
              ["overview"; "criticalIssues"; "recommendations"] |} |}.

Definition summaryOf `{JSON} (response : GenerateContentResponse) : result value :=
  if no_text response then Ok (fallbackSummary "Could not generate report.")
  else
    try_catch
      (parse (default "" (text response)))
      (fun e => Ok (fallbackSummary "Error parsing AI response.")).

(** [String.prototype.slice] counts UTF-16 code units; how a text divides
    into code units belongs to the runtime.  [String_slice s first last] is
    [s.slice(first, last)]. *)
Class CodeUnits : Type := {
  String_slice : string → nat → nat → string
}.

(** [generateReport(parsedLogs)] for an argument of any shape.  Arrays are
    the case of [GeminiService.generateReport].  A string has a [slice] of
    its own.  Any other value has no callable [slice]: a TypeError. *)
Definition generateReport_any `{JSON} `{CodeUnits} (ai : GoogleGenAI) (logs : value)
  : result value :=
  match logs with
  | VArr xs => generateReport ai xs
  | VStr s =>
      response ← generateContent ai
        (reportRequest (JSON_stringify (VStr (String_slice s 0 100))));
      summaryOf response
  | _ => Throw TypeError
  end.

Definition processTextLogs `{JSON} `{CodeUnits} (ai : GoogleGenAI) (rawText : string)
    (st : State) : State :=
  let st := setIsProcessing true st in
  let st :=
    match parseLogs ai rawText with
    | Ok parsedLogs =>
        let st := setLogs parsedLogs st in
        match generateReport_any ai parsedLogs with
        | Ok analysis => setCurrentPage dashboard (setReport analysis st)
        | Throw error =>
            alert "An error occurred while processing logs. Please try again." st
        end
    | Throw error =>
        alert "An error occurred while processing logs. Please try again." st
    end in
  setIsProcessing false st.

Definition processGCPLogs `{JSON} (ai : GoogleGenAI) (fetchedLogs : list value)
    (st : State) : State :=
  let st := setIsProcessing true st in
  let st := setLogs (VArr fetchedLogs) st in
  let st :=
    match generateReport ai fetchedLogs with
    | Ok analysis => setCurrentPage dashboard (setReport analysis st)
    | Throw error => alert "An error occurred while analyzing GCP logs." st
    end in
  setIsProcessing false st.

Definition reset (st : State) : State :=
  setCurrentPage upload (setReport VNull (setLogs (VArr []) st)).

End App.

(** ** components/LogUploader.tsx *)

Module LogUploader.
Import JS GeminiService.

(** The texts of the errors the runtime itself raises are the engine's. *)
Class Engine : Type := {
  TypeError_message : string;
  SyntaxError_message : string
}.

(** [err.message]; a rejection carries an error with the given text. *)
Definition message_of `{Engine} (e : exn) : string :=
  match e with
  | TypeError => TypeError_message
  | SyntaxError => SyntaxError_message
  | Error message => message
  | Rejected reason => reason
  end.

Inductive Mode := paste | gcp.

(** [text] is [string | undefined] once [generateDemoLogs] has answered. *)
Record State := {
  mode : Mode;
  text : option string;
  isGenerating : bool;
  isFetchingGCP : bool;
  gcpError : option string;
  alerts : list string
}.

Definition initial : State :=
  {| mode := paste; text := Some ""; isGenerating := false;
     isFetchingGCP := false; gcpError := None; alerts := [] |}.

Definition handleGenerate (ai : GoogleGenAI) (st : State) : State :=
  let after :=
    match generateDemoLogs ai with
    | Ok demoLogs => (demoLogs, alerts st)
    | Throw error =>
        (text st, (alerts st ++ ["Failed to generate demo logs. Check API Key."])%list)
    end in
  {| mode := mode st; text := fst after; isGenerating := false;
     isFetchingGCP := isFetchingGCP st; gcpError := gcpError st;
     alerts := snd after |}.

(** The new state, and the logs handed to [onProcessGCP] when it is
    called. *)
Definition handleGCPConnect `{JSON} `{Engine} (fetch : Fetch)
    (secrets : SecretsContext.State) (st : State) : State * option (list value) :=
  if negb (SecretsContext.hasSecrets secrets) then (st, None)
  else
    let outcome :=
      match fetchGCPLogs fetch (SecretsContext.projectId secrets)
              (SecretsContext.accessToken secrets) with
      | Ok logs =>
          if (length logs =? 0)%nat then
            (Some "Connection successful, but no logs found for the last hour.", None)
          else (None, Some logs)
      | Throw err =>
          (Some (if String.eqb (message_of err) ""
                 then "Failed to connect to GCP. Check your token and permissions."
                 else message_of err),
           None)
      end in
    ({| mode := mode st; text := text st; isGenerating := isGenerating st;
        isFetchingGCP := false; gcpError := fst outcome;
        alerts := alerts st |},
     snd outcome).

End LogUploader.

(** ** components/SecretsInput.tsx *)

Module SecretsInput.
Import SecretsContext.

Record Form := {
  pid : string;
  token : string;
  showToken : bool;
  envStatusMsg : option string
}.

(** The effect that copies the provider's values into the fields. *)
Definition syncForm (secrets : State) (form : Form) : Form :=
  {| pid := projectId secrets; token := accessToken secrets;
     showToken := showToken form; envStatusMsg := envStatusMsg form |}.

(** The provider's new state, and whether the save went through (when
    [onSaved] is called, if given). *)
Definition handleSave (form : Form) (secrets : State) : State * bool :=
  if negb (String.eqb (pid form) "") && negb (String.eqb (token form) "")
  then (setSecrets (pid form) (token form) secrets, true)
  else (secrets, false).

(** The message is cleared by a timer three seconds later; the timer is
    left out. *)
Definition handleLoadEnv (env : Environment) (form : Form) (secrets : State)
  : Form * State :=
  let '(success, secrets') := loadFromEnv env secrets in
  ({| pid := pid form; token := token form; showToken := showToken form;
      envStatusMsg :=
        Some (if success
              then "Successfully loaded credentials from environment."
              else "No environment variables (GCP_PROJECT_ID, GCP_ACCESS_TOKEN) found.") |},
   secrets').

End SecretsInput.

(** ** components/CostDashboard.tsx *)

Module CostDashboard.
Import JS GeminiService.

Record State := { data : value; loading : bool; scale : ProjectScale }.

Definition initial : State :=
  {| data := VNull; loading := false; scale := hobby |}.

(** The effect run on mount and whenever the project id or the scale
    changes. *)
Definition loadData `{JSON} (ai : GoogleGenAI) (projectId : string) (st : State)
  : State :=
  let target := if String.eqb projectId "" then "demo-project" else projectId in
  {| data :=
       match generateCostReport ai target (Some (scale st)) with
       | Ok report => report
       | Throw e => data st
       end;
     loading := false;
     scale := scale st |}.

End CostDashboard.

(** ** components/Dashboard.tsx: the figures computed from the logs *)

Module Dashboard.
Import JS.

(** [l.severity === sev] *)
Definition is_str (sev : string) (v : value) : bool :=
  match v with
  | VStr s => String.eqb s sev
  | _ => false
  end.

(** [logs.filter(keep).length], where [keep] reads a property of the entry
    and so fails on a [null] entry. *)
Fixpoint countM (keep : value → result bool) (logs : list value) : result nat :=
  match logs with
  | [] => Ok 0
  | l :: rest =>
      b ← keep l;
      n ← countM keep rest;
      Ok (if b : bool then S n else n)
  end.

Definition severityData (logs : list value) : result (list (string * nat)) :=
  counted ← mapM
    (λ sev,
       n ← countM (λ l, s ← member l "severity"; Ok (is_str sev s)) logs;
       Ok (sev, n))
    Types.Severity;
  Ok (filter (λ d, 0 < snd d) counted).

(** [logs.map((l, i) => ...)], starting at index [i]. *)
Fixpoint timeDataFrom (i : nat) (logs : list value) : result (list (nat * nat)) :=
  match logs with
  | [] => Ok []
  | l :: rest =>
      s ← member l "severity";
      let severityVal := if is_str "ERROR" s || is_str "CRITICAL" s then 10 else 1 in
      more ← timeDataFrom (S i) rest;
      Ok ((i, severityVal) :: more)
  end.

Definition timeData (logs : list value) : result (list (nat * nat)) :=
  timeDataFrom 0 logs.

Definition totalErrors (logs : list value) : result nat :=
  countM
    (λ l,
       s ← member l "severity";
       Ok (existsb (λ sev, is_str sev s) ["ERROR"; "CRITICAL"; "ALERT"]))
    logs.

End Dashboard.

(** * Vocabulary of the specification and sample inputs *)

Module Spec.
Import JS SecretsContext.

(** What the build-time and run-time environment variables ([process.env],
    then [import.meta.env]) hold for a key. *)
Definition envVarValue (env : Environment) (key : string) : option string :=
  if truthy_str (process_env env !! key) then process_env env !! key
  else
    let v :=
      match import_meta env with
      | Some meta =>
          match meta_env meta with
          | Some e => e !! key
          | None => None
          end
      | None => None
      end in
    if truthy_str v then v else None.

(** What the runtime-injected global [window._env_] holds for a key. *)
Definition runtimeGlobalValue (env : Environment) (key : string) : option string :=
  let v :=
    match window env with
    | Some w =>
        match _env_ w with
        | Some e => e !! key
        | None => None
        end
    | None => None
    end in
  if truthy_str v then v else None.

(** The first candidate that JavaScript counts as true, else the fallback. *)
Definition first_truthy (candidates : list value) (fallback : value) : value :=
  default fallback (head (filter (λ v, truthy v = true) candidates)).

(** The literal reading of "the first present of": a key that is there
    counts, whatever its value. *)
Definition present (v : value) : bool :=
  match v with
  | VUndefined => false
  | _ => true
  end.

Definition first_present (candidates : list value) (fallback : value) : value :=
  default fallback (head (filter (λ v, present v = true) candidates)).

(** [v?.k1?.k2 ...] *)
Definition path (v : value) (keys : list string) : value :=
  foldl opt_member v keys.

(** The four places a service name is looked for, in order. *)
Definition serviceCandidates (entry : value) : list value :=
  [ path entry ["resource"; "labels"; "module_id"];
    path entry ["resource"; "labels"; "service_name"];
    path entry ["resource"; "labels"; "cluster_name"];
    path entry ["resource"; "type"] ].

(** The message body of an entry: its text payload if that counts as true,
    else the serialisation of its JSON payload if that counts as true, else
    the placeholder. *)
Definition messageOf `{JSON} (entry : value) : value :=
  if truthy (path entry ["textPayload"]) then path entry ["textPayload"]
  else if truthy (path entry ["jsonPayload"])
       then VStr (JSON_stringify (path entry ["jsonPayload"]))
       else VStr "No message content".

(** The canonical entry built from a native entry. *)
Definition normalized `{JSON} (entry : value) : value :=
  VObj [ ("timestamp", path entry ["timestamp"]);
         ("severity", or_else (path entry ["severity"]) (VStr "INFO"));
         ("service", first_truthy (serviceCandidates entry) (VStr "gcp-service"));
         ("message", messageOf entry);
         ("traceId", path entry ["trace"]) ].

(** [sub] occurs in [s]. *)
Definition contains (sub s : string) : Prop :=
  ∃ before after, s = before ++ sub ++ after.

(** The completion returned an empty text, or a text that is not JSON. *)
Definition malformed `{JSON} (response : GeminiService.GenerateContentResponse) : bool :=
  GeminiService.no_text response
  || match JSON_parse (default "" (GeminiService.text response)) with
     | Some _ => false
     | None => true
     end.

End Spec.

Module Samples.
Import JS SecretsContext.

Fixpoint fact (text : string) (facts : list (string * value)) : option value :=
  match facts with
  | [] => None
  | (t, v) :: rest => if String.eqb text t then Some v else fact text rest
  end.

(** The serialisation of the values made of [null], booleans, strings of
    plain characters, arrays and objects; anything else is printed as
    [null] and is not used by the samples. *)
Fixpoint show_json (v : value) : string :=
  match v with
  | VBool true => "true"
  | VBool false => "false"
  | VStr s => dquote ++ s ++ dquote
  | VArr xs =>
      "[" ++ String.concat "," (map show_json xs) ++ "]"
  | VObj props =>
      "{" ++ String.concat ","
               (map (λ p, dquote ++ fst p ++ dquote ++ ":" ++ show_json (snd p)) props)
          ++ "}"
  | _ => "null"
  end.

(** A runtime known through finitely many facts [JSON.parse text = v]; the
    samples only rely on the listed pairs. *)
Definition table_JSON (facts : list (string * value)) : JSON :=
  {| JSON_parse := λ text, fact text facts;
     JSON_stringify := show_json |}.

(** A [fetch] that settles with the given response, and a completion client
    that answers every request with the given text. *)
Definition respond (r : GeminiService.Response) : GeminiService.Fetch :=
  λ _ _, Ok r.
Definition answer (t : option string) : GeminiService.GoogleGenAI :=
  {| GeminiService.generateContent := λ _, Ok {| GeminiService.text := t |} |}.

(** Three entries: a JSON payload, a text payload, and no payload at all. *)
Definition three_entries : value :=
  VObj [ ("entries",
          VArr [ VObj [ ("jsonPayload", VObj [("a", VStr "b")]) ];
                 VObj [ ("textPayload", VStr "boot");
                        ("severity", VStr "NOTICE");
                        ("timestamp", VStr "2024-05-01T10:00:00Z") ];
                 VObj [] ]) ].

(** An entry whose [module_id] label is there but empty. *)
Definition empty_label_entry : value :=
  VObj [ ("resource",
          VObj [ ("labels",
                  VObj [ ("module_id", VStr ""); ("service_name", VStr "api") ]) ]) ].

(** An entry with the severity [DEFAULT] of the logging service and no
    timestamp. *)
Definition default_severity_entry : value :=
  VObj [ ("severity", VStr "DEFAULT"); ("textPayload", VStr "tick") ].

(** The project id only under the unprefixed name in [process.env], the
    token only under the Vite name in [import.meta.env]. *)
Definition env_mixed : Environment :=
  {| process_env := {[ "GCP_PROJECT_ID" := "my-project" ]};
     import_meta := Some {| meta_env := Some {[ "VITE_GCP_ACCESS_TOKEN" := "ya29.token" ]} |};
     window := None |}.

(** A build-time variable under the Vite name, and a runtime-injected value
    under the unprefixed name. *)
Definition env_runtime_first : Environment :=
  {| process_env := {[ "VITE_GCP_PROJECT_ID" := "build-project" ]};
     import_meta := None;
     window := Some {| _env_ := Some {[ "GCP_PROJECT_ID" := "runtime-project" ]} |} |}.

End Samples.

(** * Vocabulary of the further properties *)

Module Facts.
Import JS SecretsContext.

(** Some source holds the value [v] for the key. *)
Definition held (env : Environment) (key v : string) : Prop :=
  process_env env !! key = Some v
  ∨ (∃ meta e, import_meta env = Some meta ∧ meta_env meta = Some e ∧ e !! key = Some v)
  ∨ (∃ w e, window env = Some w ∧ _env_ w = Some e ∧ e !! key = Some v).

(** A page reload: the provider starts afresh over the tab's storage. *)
Definition reload (env : Environment) (st : State) : State :=
  initialize env (initial (sessionStorage st)).

(** The number of entries whose severity is exactly [sev]. *)
Definition count_sev (sev : string) (logs : list value) : nat :=
  length (filter (λ l, Dashboard.is_str sev (lookup_prop l "severity") = true) logs).

(** The two alerts of the application. *)
Definition textAlert : string :=
  "An error occurred while processing logs. Please try again.".
Definition gcpAlert : string := "An error occurred while analyzing GCP logs.".

(** The two fixed messages of the uploader. *)
Definition noLogsMessage : string :=
  "Connection successful, but no logs found for the last hour.".
Definition connectFallback : string :=
  "Failed to connect to GCP. Check your token and permissions.".

(** The number of entries whose severity is one of the eight of the enum. *)
Definition count_known (logs : list value) : nat :=
  length (filter (λ l, Types.is_Severity (lookup_prop l "severity") = true) logs).

(** An entry that is neither [null] nor [undefined]. *)
Definition live (l : value) : Prop := nullish l = false.

(** The weight of an entry on the timeline. *)
Definition severityVal (l : value) : nat :=
  if Dashboard.is_str "ERROR" (lookup_prop l "severity")
     || Dashboard.is_str "CRITICAL" (lookup_prop l "severity")
  then 10 else 1.

(** The keys of an object, in order. *)
Definition keys_of (v : value) : list string :=
  match v with
  | VObj props => fst <$> props
  | _ => []
  end.

End Facts.

(** An environment with nothing in it, and an arbitrary engine. *)
Module MoreSamples.
Import JS SecretsContext.

Definition env_empty : Environment :=
  {| process_env := ∅; import_meta := None; window := None |}.

Definition engine : LogUploader.Engine :=
  {| LogUploader.TypeError_message := "Cannot read properties of null";
     LogUploader.SyntaxError_message := "Unexpected token" |}.

Definition with_secrets : State :=
  setSecrets "my-project" "ya29.token" (initial ∅).

(** Code units of a text of ASCII characters: one per character. *)
Definition ascii_units : App.CodeUnits :=
  {| App.String_slice := λ s first last, substring first (last - first) s |}.

(** Five canonical entries: INFO, ERROR, ALERT, EMERGENCY and the foreign
    severity DEFAULT. *)
Definition five_logs : list value :=
  (λ sev, VObj [("severity", VStr sev); ("service", VStr "api")])
    <$> ["INFO"; "ERROR"; "ALERT"; "EMERGENCY"; "DEFAULT"].

End MoreSamples.

(** * Properties *)

(** ** The credential resolver *)

Section Resolver.
Import SecretsContext.

Implicit Types (env : Environment) (st : State) (key : string).

Lemma truthy_str_Some (o : option string) :
  truthy_str o = true → ∃ v, o = Some v ∧ v ≠ "".
Proof.
  destruct o as [v|]; simpl; [|discriminate].
  intros Hv. exists v. split; [reflexivity|].
  intros ->. discriminate.
Qed.

Lemma truthy_str_nonempty (v : string) :
  v ≠ "" → truthy_str (Some v) = true.
Proof.
  intros Hv. simpl. destruct (String.eqb_spec v ""); [contradiction|reflexivity].
Qed.

(** [getEnvValue] never hands back the empty string. *)
Lemma getEnvValue_truthy env key v :
  getEnvValue env key = Some v → truthy_str (Some v) = true.
Proof.
  unfold getEnvValue.
  destruct (truthy_str (process_env env !! key)) eqn:Hp.
  { intros E. rewrite E in Hp. exact Hp. }
  destruct (import_meta env) as [[[e|]]|];
    destruct (window env) as [[[e'|]]|]; simpl;
    repeat match goal with
           | |- context [truthy_str (?m !! key)] =>
               let E := fresh "E" in destruct (truthy_str (m !! key)) eqn:E
           end;
    intros Hv; try discriminate;
    try (rewrite Hv in *; assumption);
    destruct (e !! key); try discriminate; simplify_eq; assumption.
Qed.

(** The loop returns the value of the first key, in list order, for which
    [getEnvValue] finds anything. *)
Lemma scan_first_hit env (keys : list string) :
  scan env keys = head (omap (getEnvValue env) keys).
Proof.
  induction keys as [|key rest IH]; [reflexivity|].
  simpl. destruct (getEnvValue env key) as [v|] eqn:Hv.
  - pose proof (getEnvValue_truthy _ _ _ Hv) as T.
    simpl in *. rewrite T. reflexivity.
  - simpl. exact IH.
Qed.

Lemma scan_truthy env (keys : list string) v :
  scan env keys = Some v → truthy_str (Some v) = true.
Proof.
  induction keys as [|key rest IH]; simpl; [discriminate|].
  destruct (truthy_str (getEnvValue env key)) eqn:Hk; [|exact IH].
  intros E. rewrite E in Hk. exact Hk.
Qed.

Lemma scan_single_source env (keys : list string) key v :
  key ∈ keys →
  (∀ k, k ∈ keys → getEnvValue env k = if decide (k = key) then Some v else None) →
  scan env keys = Some v.
Proof.
  rewrite scan_first_hit.
  induction keys as [|k rest IH]; intros Hin Hall.
  { by apply elem_of_nil in Hin. }
  simpl. rewrite (Hall k) by apply list_elem_of_here.
  destruct (decide (k = key)) as [->|Hne]; [reflexivity|].
  apply IH.
  - apply elem_of_cons in Hin as [->|Hin]; [contradiction|exact Hin].
  - intros k' Hk'. apply Hall. by apply list_elem_of_further.
Qed.

Lemma loadFromEnv_found env st pid token :
  scan env pidKeys = Some pid → scan env tokenKeys = Some token →
  loadFromEnv env st =
    (true,
     {| projectId := pid; accessToken := token; isEnvManaged := true;
        sessionStorage :=
          <["gcp_access_token" := token]>
            (<["gcp_project_id" := pid]> (sessionStorage st)) |}).
Proof.
  intros Hp Ht. unfold loadFromEnv.
  pose proof (scan_truthy _ _ _ Hp) as Tp.
  pose proof (scan_truthy _ _ _ Ht) as Tt.
  destruct (scan env pidKeys); [|discriminate].
  destruct (scan env tokenKeys); [|discriminate].
  simplify_eq. rewrite Tp, Tt. reflexivity.
Qed.

Lemma loadFromEnv_missing env st :
  scan env pidKeys = None ∨ scan env tokenKeys = None →
  loadFromEnv env st = (false, st).
Proof.
  unfold loadFromEnv.
  destruct (scan env pidKeys), (scan env tokenKeys);
    intros [?|?]; try discriminate; reflexivity.
Qed.

(** C1.  Whatever the environment and the prior state: when the scan finds
    both a project id and a token, [loadFromEnv] returns [true], both fields
    hold exactly the found values, both values are in session storage under
    [gcp_project_id] and [gcp_access_token] (no other key is touched) and the
    credential is marked environment-managed; when either is missing it
    returns [false] together with the state it was given. *)
Theorem loadFromEnv_both_or_untouched env st :
  match scan env pidKeys, scan env tokenKeys with
  | Some pid, Some token =>
      fst (loadFromEnv env st) = true
      ∧ projectId (snd (loadFromEnv env st)) = pid
      ∧ accessToken (snd (loadFromEnv env st)) = token
      ∧ isEnvManaged (snd (loadFromEnv env st)) = true
      ∧ sessionStorage (snd (loadFromEnv env st)) !! "gcp_project_id" = Some pid
      ∧ sessionStorage (snd (loadFromEnv env st)) !! "gcp_access_token" = Some token
      ∧ sessionStorage (snd (loadFromEnv env st)) =
          <["gcp_access_token" := token]>
            (<["gcp_project_id" := pid]> (sessionStorage st))
  | _, _ => loadFromEnv env st = (false, st)
  end.
Proof.
  destruct (scan env pidKeys) as [pid|] eqn:Hp;
    destruct (scan env tokenKeys) as [token|] eqn:Ht.
  - rewrite (loadFromEnv_found env st pid token Hp Ht). simpl.
    repeat split.
    + rewrite lookup_insert_ne by discriminate. apply lookup_insert_eq.
    + apply lookup_insert_eq.
  - apply loadFromEnv_missing. by right.
  - apply loadFromEnv_missing. by left.
  - apply loadFromEnv_missing. by left.
Qed.

(** C6.  The project-id keys and the token keys are scanned separately, each
    in the order unprefixed, Vite, React, each yielding the value of its first
    key with a non-empty value.  So when the project id is available under
    one key only and the token under one key only -- be they of different
    naming conventions -- the two values are combined and the load succeeds. *)
Theorem scans_independent_cross_convention env st (kp kt p t : string) :
  kp ∈ pidKeys → kt ∈ tokenKeys →
  (∀ k, k ∈ pidKeys → getEnvValue env k = if decide (k = kp) then Some p else None) →
  (∀ k, k ∈ tokenKeys → getEnvValue env k = if decide (k = kt) then Some t else None) →
  (∀ keys, scan env keys = head (omap (getEnvValue env) keys))
  ∧ pidKeys = ["GCP_PROJECT_ID"; "VITE_GCP_PROJECT_ID"; "REACT_APP_GCP_PROJECT_ID"]
  ∧ tokenKeys = ["GCP_ACCESS_TOKEN"; "VITE_GCP_ACCESS_TOKEN"; "REACT_APP_GCP_ACCESS_TOKEN"]
  ∧ scan env pidKeys = Some p
  ∧ scan env tokenKeys = Some t
  ∧ loadFromEnv env st =
      (true,
       {| projectId := p; accessToken := t; isEnvManaged := true;
          sessionStorage :=
            <["gcp_access_token" := t]>
              (<["gcp_project_id" := p]> (sessionStorage st)) |}).
Proof.
  intros Hkp Hkt Hp Ht.
  pose proof (scan_single_source env pidKeys kp p Hkp Hp) as Sp.
  pose proof (scan_single_source env tokenKeys kt t Hkt Ht) as St.
  split; [apply scan_first_hit|].
  do 2 (split; [reflexivity|]).
  do 2 (split; [assumption|]).
  by apply loadFromEnv_found.
Qed.

Lemma env_mixed_pid k :
  k ∈ pidKeys →
  getEnvValue Samples.env_mixed k =
    if decide (k = "GCP_PROJECT_ID") then Some "my-project" else None.
Proof.
  unfold pidKeys. rewrite !elem_of_cons, elem_of_nil.
  intros [->|[->|[->|[]]]]; vm_compute; reflexivity.
Qed.

Lemma env_mixed_token k :
  k ∈ tokenKeys →
  getEnvValue Samples.env_mixed k =
    if decide (k = "VITE_GCP_ACCESS_TOKEN") then Some "ya29.token" else None.
Proof.
  unfold tokenKeys. rewrite !elem_of_cons, elem_of_nil.
  intros [->|[->|[->|[]]]]; vm_compute; reflexivity.
Qed.

Lemma scans_independent_cross_convention_witness :
  loadFromEnv Samples.env_mixed (initial ∅) =
    (true,
     {| projectId := "my-project"; accessToken := "ya29.token";
        isEnvManaged := true;
        sessionStorage :=
          <["gcp_access_token" := "ya29.token"]>
            (<["gcp_project_id" := "my-project"]> ∅) |}).
Proof.
  apply (scans_independent_cross_convention Samples.env_mixed (initial ∅)
           "GCP_PROJECT_ID" "VITE_GCP_ACCESS_TOKEN" "my-project" "ya29.token").
  - unfold pidKeys. apply list_elem_of_here.
  - unfold tokenKeys. apply list_elem_of_further, list_elem_of_here.
  - apply env_mixed_pid.
  - apply env_mixed_token.
Defined.

(** C7, as the specification states it, fails: with a build-time variable
    under the Vite name and a runtime-injected value under the unprefixed
    name, the project id resolved is the runtime-injected one. *)
Lemma runtime_global_beats_later_env_var :
  Spec.envVarValue Samples.env_runtime_first "VITE_GCP_PROJECT_ID" = Some "build-project"
  ∧ Spec.runtimeGlobalValue Samples.env_runtime_first "GCP_PROJECT_ID" = Some "runtime-project"
  ∧ scan Samples.env_runtime_first pidKeys = Some "runtime-project".
Proof. vm_compute. repeat split. Qed.

(** C7, amended.  Precedence between the source classes holds key by key:
    the value of a key is what the environment variables ([process.env],
    then [import.meta.env]) hold for that key, and the runtime-injected
    global is read for it only when they hold nothing; the scan then takes
    the first key, in key order, that has a value from any source. *)
Theorem getEnvValue_precedence_per_key env key :
  getEnvValue env key =
    match Spec.envVarValue env key with
    | Some v => Some v
    | None => Spec.runtimeGlobalValue env key
    end
  ∧ ∀ keys, scan env keys = head (omap (getEnvValue env) keys).
Proof.
  split; [|apply scan_first_hit].
  unfold getEnvValue, Spec.envVarValue, Spec.runtimeGlobalValue.
  destruct (truthy_str (process_env env !! key)) eqn:Hp.
  { apply truthy_str_Some in Hp as (v & -> & _). reflexivity. }
  destruct (import_meta env) as [[[e|]]|];
    destruct (window env) as [[[e'|]]|]; simpl;
    repeat match goal with
           | |- context [truthy_str (?m !! key)] =>
               let E := fresh "E" in
               destruct (truthy_str (m !! key)) eqn:E;
               [apply truthy_str_Some in E as (? & -> & _)|]
           end;
    reflexivity.
Qed.

(** C9.  From any state, [setSecrets pid token] leaves both fields equal to
    its arguments, both session storage keys holding them, and the
    environment-managed flag false; in particular right after a successful
    [loadFromEnv]. *)
Theorem setSecrets_overwrites_and_demotes st (pid token : string) :
  projectId (setSecrets pid token st) = pid
  ∧ accessToken (setSecrets pid token st) = token
  ∧ isEnvManaged (setSecrets pid token st) = false
  ∧ sessionStorage (setSecrets pid token st) !! "gcp_project_id" = Some pid
  ∧ sessionStorage (setSecrets pid token st) !! "gcp_access_token" = Some token
  ∧ (∀ k, sessionStorage (setSecrets pid token st) !! k =
          if decide (k = "gcp_access_token") then Some token
          else if decide (k = "gcp_project_id") then Some pid
          else sessionStorage st !! k)
  ∧ (∀ env st0,
       let loaded := snd (loadFromEnv env st0) in
       isEnvManaged (setSecrets pid token loaded) = false
       ∧ projectId (setSecrets pid token loaded) = pid
       ∧ accessToken (setSecrets pid token loaded) = token).
Proof.
  repeat split; simpl.
  - rewrite lookup_insert_ne by discriminate. apply lookup_insert_eq.
  - apply lookup_insert_eq.
  - intros k. rewrite lookup_insert. destruct (decide ("gcp_access_token" = k)) as [<-|Hk].
    + reflexivity.
    + rewrite decide_False by congruence.
      rewrite lookup_insert. destruct (decide ("gcp_project_id" = k)) as [<-|Hk'].
      * reflexivity.
      * rewrite decide_False by congruence. reflexivity.
Qed.

(** A further property of the specification: clearing after a manual entry
    leaves no credential and no stored key. *)
Lemma clearSecrets_after_setSecrets st (pid token : string) :
  hasSecrets (clearSecrets (setSecrets pid token st)) = false
  ∧ sessionStorage (clearSecrets (setSecrets pid token st)) !! "gcp_project_id" = None
  ∧ sessionStorage (clearSecrets (setSecrets pid token st)) !! "gcp_access_token" = None.
Proof.
  repeat split; simpl.
  - rewrite lookup_delete_ne by discriminate. apply lookup_delete_eq.
  - apply lookup_delete_eq.
Qed.

(** X7.  Loading from the environment twice is the same as loading once:
    the second call returns the same answer and leaves the state of the
    first. *)
Lemma loadFromEnv_idempotent env st :
  loadFromEnv env (snd (loadFromEnv env st)) = loadFromEnv env st.
Proof.
  destruct (scan env pidKeys) as [pid|] eqn:Hp;
    [destruct (scan env tokenKeys) as [token|] eqn:Ht|].
  - rewrite !(loadFromEnv_found env _ pid token Hp Ht). simpl.
    do 2 f_equal. apply map_eq. intros k.
    rewrite !lookup_insert. repeat case_decide; reflexivity.
  - rewrite !(loadFromEnv_missing env) by (by right). reflexivity.
  - rewrite !(loadFromEnv_missing env) by (by left). reflexivity.
Qed.

End Resolver.

(** ** The log normaliser *)

Section Normalizer.
Import JS GeminiService.

Implicit Types (entry out data : value) (xs ys : list value).

Lemma first_truthy_nil (fallback : value) :
  Spec.first_truthy [] fallback = fallback.
Proof. reflexivity. Qed.

Lemma first_truthy_cons (c : value) (cs : list value) (fallback : value) :
  Spec.first_truthy (c :: cs) fallback = or_else c (Spec.first_truthy cs fallback).
Proof.
  unfold Spec.first_truthy, or_else.
  destruct (truthy c) eqn:Hc.
  - rewrite filter_cons_True by exact Hc. reflexivity.
  - rewrite filter_cons_False by (rewrite Hc; discriminate). reflexivity.
Qed.

Lemma opt_member_live (v : value) (k : string) :
  nullish v = false → opt_member v k = lookup_prop v k.
Proof. unfold opt_member. intros ->. reflexivity. Qed.

Lemma member_live (v : value) (k : string) :
  nullish v = false → member v k = Ok (lookup_prop v k).
Proof. unfold member. intros ->. reflexivity. Qed.

(** On an entry that is neither [null] nor [undefined] the callback returns
    the canonical entry. *)
Lemma mapEntry_live `{J : JSON} entry :
  nullish entry = false → mapEntry entry = Ok (Spec.normalized entry).
Proof.
  intros Hlive. unfold mapEntry, Spec.normalized, Spec.messageOf,
    Spec.serviceCandidates, Spec.path.
  rewrite !member_live by exact Hlive. simpl.
  rewrite !first_truthy_cons, first_truthy_nil.
  rewrite !(opt_member_live entry) by exact Hlive.
  destruct (truthy (lookup_prop entry "textPayload")); simpl;
    [reflexivity|].
  destruct (truthy (lookup_prop entry "jsonPayload")); reflexivity.
Qed.

Lemma mapEntry_dead `{J : JSON} entry :
  nullish entry = true → mapEntry entry = Throw TypeError.
Proof. intros Hdead. unfold mapEntry, member. rewrite Hdead. reflexivity. Qed.

Lemma mapM_mapEntry_live `{J : JSON} xs :
  Forall (λ entry, nullish entry = false) xs →
  mapM mapEntry xs = Ok (map Spec.normalized xs).
Proof.
  induction 1 as [|entry rest Hlive _ IH]; [reflexivity|].
  simpl. rewrite (mapEntry_live entry Hlive). simpl. rewrite IH. reflexivity.
Qed.

(** The path a settled response takes through [fetchGCPLogs]. *)
Lemma fetchGCPLogs_settled `{J : JSON} (fetch : Fetch) (pid tok : string) (r : Response) :
  fetch entries_list_url (fetchGCPLogs_init pid tok) = Ok r →
  fetchGCPLogs fetch pid tok =
    if ok r then
      data ← parse (responseText r);
      entries ← member data "entries";
      if truthy entries then
        match entries with
        | VArr xs => mapM mapEntry xs
        | _ => Throw TypeError
        end
      else Ok []
    else
      Throw (Error ("GCP API Error (" ++ pretty (status r) ++ "): " ++ responseText r)).
Proof.
  intros Hfetch. unfold fetchGCPLogs. rewrite Hfetch. simpl.
  destruct (ok r); simpl; [|reflexivity].
  destruct (parse (responseText r)) as [data|e]; simpl; [|reflexivity].
  destruct (member data "entries") as [entries|e]; simpl; [|reflexivity].
  destruct (truthy entries); simpl; [|reflexivity].
  destruct entries; try reflexivity.
  destruct (mapM mapEntry xs); reflexivity.
Qed.

Lemma string_app_assoc (a b c : string) : (a ++ b) ++ c = a ++ b ++ c.
Proof.
  induction a as [|ch a IH]; [reflexivity|].
  change (String ch ((a ++ b) ++ c) = String ch (a ++ b ++ c)).
  f_equal. exact IH.
Qed.

Lemma string_app_empty_r (a : string) : a ++ "" = a.
Proof.
  induction a as [|ch a IH]; [reflexivity|].
  change (String ch (a ++ "") = String ch a).
  f_equal. exact IH.
Qed.

Lemma ok_status (r : Response) :
  ok r = true ↔ (200 ≤ status r ≤ 299)%N.
Proof.
  unfold ok. rewrite andb_true_iff, !N.leb_le. reflexivity.
Qed.

(** The two examples of the specification: a resource type without labels,
    and an entry with neither. *)
Example service_of_gce_instance `{J : JSON} :
  mapEntry (VObj [("resource", VObj [("type", VStr "gce_instance")])]) =
    Ok (VObj [ ("timestamp", VUndefined);
               ("severity", VStr "INFO");
               ("service", VStr "gce_instance");
               ("message", VStr "No message content");
               ("traceId", VUndefined) ]).
Proof. reflexivity. Qed.

Example service_of_bare_entry `{J : JSON} :
  mapEntry (VObj [("textPayload", VStr "boot"); ("trace", VStr "t-1")]) =
    Ok (VObj [ ("timestamp", VUndefined);
               ("severity", VStr "INFO");
               ("service", VStr "gcp-service");
               ("message", VStr "boot");
               ("traceId", VStr "t-1") ]).
Proof. reflexivity. Qed.

(** C2, as the specification states it, fails: a [module_id] label that is
    there but empty is passed over, and the service is the next label. *)
Lemma service_skips_empty_label :
  (∀ J' : JSON, ∃ out,
      @mapEntry J' Samples.empty_label_entry = Ok out
      ∧ lookup_prop out "service" = VStr "api")
  ∧ Spec.first_present (Spec.serviceCandidates Samples.empty_label_entry)
      (VStr "gcp-service") = VStr ""
  ∧ VStr "api" ≠ VStr "".
Proof.
  split; [|split; [reflexivity|discriminate]].
  intros J'. eexists. split; reflexivity.
Qed.

(** C2, amended.  The service of a mapped entry is the first of
    [resource.labels.module_id], [resource.labels.service_name],
    [resource.labels.cluster_name], [resource.type] whose value counts as
    true in JavaScript (present and not empty), and ["gcp-service"] when
    none does.  The callback fails, with a TypeError, only on an entry that
    is [null]. *)
Theorem service_first_truthy_candidate `{J : JSON} entry :
  match mapEntry entry with
  | Ok out =>
      nullish entry = false
      ∧ lookup_prop out "service" =
          Spec.first_truthy (Spec.serviceCandidates entry) (VStr "gcp-service")
  | Throw e => nullish entry = true ∧ e = TypeError
  end.
Proof.
  destruct (nullish entry) eqn:Hn.
  - rewrite (mapEntry_dead entry Hn). split; reflexivity.
  - rewrite (mapEntry_live entry Hn). split; reflexivity.
Qed.

(** C3, as the specification states it, fails: the placeholder of an entry
    with no payload starts with a capital letter, and an empty text payload
    gives way to the JSON payload. *)
Lemma placeholder_is_capitalised :
  (∀ J' : JSON, ∃ out,
      @mapEntry J' (VObj []) = Ok out
      ∧ lookup_prop out "message" = VStr "No message content")
  ∧ VStr "No message content" ≠ VStr "no message content"
  ∧ (∀ J' : JSON, ∃ out,
      @mapEntry J' (VObj [("textPayload", VStr ""); ("jsonPayload", VObj [])]) = Ok out
      ∧ lookup_prop out "message" = VStr (@JSON_stringify J' (VObj []))).
Proof.
  split; [|split; [discriminate|]];
    intros J'; eexists; split; reflexivity.
Qed.

(** C3, amended.  For a 2xx response whose [entries] is an array of
    entries (none of them [null]), [fetchGCPLogs] returns one canonical
    entry per input entry, in order, and the message of each is the entry's
    [textPayload] verbatim when that counts as true (present and not
    empty), else the serialisation of its [jsonPayload] when that counts as
    true, else the literal ["No message content"]. *)
Theorem message_rule_and_no_drop `{J : JSON} (fetch : Fetch) (pid tok : string)
    (r : Response) data xs :
  fetch entries_list_url (fetchGCPLogs_init pid tok) = Ok r →
  (200 ≤ status r ≤ 299)%N →
  JSON_parse (responseText r) = Some data →
  lookup_prop data "entries" = VArr xs →
  Forall (λ entry, nullish entry = false) xs →
  ∃ ys,
    fetchGCPLogs fetch pid tok = Ok ys
    ∧ length ys = length xs
    ∧ Forall2 (λ entry out, lookup_prop out "message" = Spec.messageOf entry) xs ys.
Proof.
  intros Hfetch Hok Hparse Hentries Hlive.
  exists (map Spec.normalized xs).
  rewrite (fetchGCPLogs_settled fetch pid tok r Hfetch).
  apply ok_status in Hok. rewrite Hok.
  unfold parse. rewrite Hparse. simpl.
  assert (nullish data = false) as Hdata
    by (destruct data; try reflexivity; discriminate).
  rewrite (member_live data "entries" Hdata). simpl. rewrite Hentries. simpl.
  split; [apply mapM_mapEntry_live, Hlive|].
  split; [apply length_map|].
  clear. induction xs as [|entry rest IH]; constructor; [reflexivity|exact IH].
Qed.

Lemma message_rule_and_no_drop_witness :
  let J' := Samples.table_JSON
              [(Samples.show_json Samples.three_entries, Samples.three_entries)] in
  let r := {| status := 200;
              responseText := Samples.show_json Samples.three_entries |} in
  ∃ ys,
    @fetchGCPLogs J' (Samples.respond r) "my-project" "ya29.token" = Ok ys
    ∧ length ys = 3
    ∧ (λ out, lookup_prop out "message") <$> ys =
        [ VStr ("{" ++ dquote ++ "a" ++ dquote ++ ":" ++ dquote ++ "b" ++ dquote ++ "}");
          VStr "boot";
          VStr "No message content" ].
Proof.
  intros J' r.
  destruct (@message_rule_and_no_drop J' (Samples.respond r)
              "my-project" "ya29.token" r Samples.three_entries
              [ VObj [ ("jsonPayload", VObj [("a", VStr "b")]) ];
                VObj [ ("textPayload", VStr "boot");
                       ("severity", VStr "NOTICE");
                       ("timestamp", VStr "2024-05-01T10:00:00Z") ];
                VObj [] ])
    as (ys & Hys & Hlen & Hmsg).
  - reflexivity.
  - simpl. lia.
  - vm_compute. reflexivity.
  - reflexivity.
  - repeat constructor.
  - exists ys. split; [exact Hys|]. split; [exact Hlen|].
    repeat match goal with
           | H : Forall2 _ _ _ |- _ => inversion H; clear H; subst
           end.
    simpl. repeat f_equal; assumption.
Defined.

(** C4.  A response outside 200-299 makes [fetchGCPLogs] throw an error
    whose message is [GCP API Error (<status>): <body>], so it contains both
    the status code and the body text; a 2xx response whose body has no
    [entries], or an empty [entries] array, makes it return the empty
    sequence. *)
Theorem fetch_failure_vs_empty `{J : JSON} (fetch : Fetch) (pid tok : string)
    (r : Response) :
  fetch entries_list_url (fetchGCPLogs_init pid tok) = Ok r →
  ((status r < 200 ∨ 299 < status r)%N →
     ∃ message,
       fetchGCPLogs fetch pid tok = Throw (Error message)
       ∧ message = "GCP API Error (" ++ pretty (status r) ++ "): " ++ responseText r
       ∧ Spec.contains (pretty (status r)) message
       ∧ Spec.contains (responseText r) message)
  ∧ ((200 ≤ status r ≤ 299)%N →
     ∀ data,
       JSON_parse (responseText r) = Some data →
       nullish data = false →
       lookup_prop data "entries" = VUndefined ∨ lookup_prop data "entries" = VArr [] →
       fetchGCPLogs fetch pid tok = Ok []).
Proof.
  intros Hfetch.
  rewrite (fetchGCPLogs_settled fetch pid tok r Hfetch).
  split.
  - intros Hbad.
    assert (ok r = false) as ->.
    { destruct (ok r) eqn:Hok; [|reflexivity].
      apply ok_status in Hok. lia. }
    eexists. split; [reflexivity|]. split; [reflexivity|]. split.
    + exists "GCP API Error (", ("): " ++ responseText r). reflexivity.
    + exists ("GCP API Error (" ++ pretty (status r) ++ "): "), "".
      rewrite string_app_empty_r, !string_app_assoc. reflexivity.
  - intros Hok data Hparse Hdata Hentries.
    apply ok_status in Hok. rewrite Hok.
    unfold parse. rewrite Hparse. simpl.
    rewrite (member_live data "entries" Hdata). simpl.
    destruct Hentries as [-> | ->]; reflexivity.
Qed.

Lemma fetch_failure_vs_empty_witness :
  let forbidden := {| status := 403; responseText := "PERMISSION_DENIED" |} in
  let no_entries := VObj [("nextPageToken", VStr "t")] in
  let quiet := {| status := 200; responseText := Samples.show_json no_entries |} in
  let J' := Samples.table_JSON [(Samples.show_json no_entries, no_entries)] in
  @fetchGCPLogs J' (Samples.respond forbidden) "my-project" "ya29.token" =
    Throw (Error "GCP API Error (403): PERMISSION_DENIED")
  ∧ @fetchGCPLogs J' (Samples.respond quiet) "my-project" "ya29.token" = Ok [].
Proof.
  intros forbidden no_entries quiet J'. split.
  - destruct (@fetch_failure_vs_empty J' (Samples.respond forbidden)
                "my-project" "ya29.token" forbidden eq_refl) as [Hfail _].
    destruct Hfail as (message & -> & -> & _); [right; simpl; lia|].
    reflexivity.
  - destruct (@fetch_failure_vs_empty J' (Samples.respond quiet)
                "my-project" "ya29.token" quiet eq_refl) as [_ Hempty].
    apply (Hempty ltac:(simpl; lia) no_entries);
      [vm_compute; reflexivity | reflexivity | left; reflexivity].
Defined.

(** The callback on an entry with the logging service's own severity
    [DEFAULT] and no timestamp, under every runtime: the severity is carried
    through and the timestamp is undefined. *)
Lemma foreign_severity_passes_through :
  (∀ J' : JSON, ∃ out,
      @mapEntry J' Samples.default_severity_entry = Ok out
      ∧ lookup_prop out "severity" = VStr "DEFAULT"
      ∧ lookup_prop out "timestamp" = VUndefined)
  ∧ Types.is_Severity (VStr "DEFAULT") = false
  ∧ Types.is_string VUndefined = false.
Proof.
  split; [|split; reflexivity].
  intros J'. eexists. repeat split; reflexivity.
Qed.

(** What the two paths do with the severity and the timestamp they are
    given.  A mapped native entry carries the upstream severity unchanged
    when it counts as true and ["INFO"] otherwise, and the upstream
    timestamp unchanged; [parseLogs] returns the parsed JSON of a non-empty
    model text as it is.  Nothing is checked on either path. *)
Theorem entries_pass_through `{J : JSON} (ai : GoogleGenAI) (rawLogs t : string)
    data entry :
  generateContent ai (parseLogs_request rawLogs) = Ok {| text := Some t |} →
  t ≠ "" →
  JSON_parse t = Some data →
  nullish entry = false →
  parseLogs ai rawLogs = Ok data
  ∧ ∃ out,
      mapEntry entry = Ok out
      ∧ lookup_prop out "severity" =
          (if truthy (lookup_prop entry "severity")
           then lookup_prop entry "severity" else VStr "INFO")
      ∧ Types.is_Severity (lookup_prop out "severity") =
          negb (truthy (lookup_prop entry "severity"))
          || Types.is_Severity (lookup_prop entry "severity")
      ∧ lookup_prop out "timestamp" = lookup_prop entry "timestamp".
Proof.
  intros Hai Ht Hparse Hlive. split.
  - unfold parseLogs. rewrite Hai. simpl.
    unfold no_text. simpl. destruct (String.eqb_spec t ""); [contradiction|].
    simpl. unfold parse. rewrite Hparse. reflexivity.
  - exists (Spec.normalized entry).
    split; [apply mapEntry_live, Hlive|].
    unfold Spec.normalized, Spec.path. simpl.
    rewrite !(opt_member_live entry) by exact Hlive.
    unfold or_else.
    destruct (truthy (lookup_prop entry "severity")) eqn:Hs; simpl;
      repeat split; reflexivity.
Qed.

Lemma entries_pass_through_witness :
  let data := VArr [ VObj [ ("timestamp", VStr "yesterday");
                            ("severity", VStr "fatal");
                            ("service", VStr "db");
                            ("message", VStr "down") ] ] in
  let J' := Samples.table_JSON [(Samples.show_json data, data)] in
  @parseLogs J' (Samples.answer (Some (Samples.show_json data))) "db down" = Ok data
  ∧ ∃ out,
      @mapEntry J' Samples.default_severity_entry = Ok out
      ∧ lookup_prop out "severity" = VStr "DEFAULT".
Proof.
  intros data J'.
  destruct (@entries_pass_through J' (Samples.answer (Some (Samples.show_json data)))
              "db down" (Samples.show_json data) data
              Samples.default_severity_entry)
    as (Hparse & out & Hout & Hsev & _).
  - reflexivity.
  - discriminate.
  - vm_compute. reflexivity.
  - reflexivity.
  - split; [exact Hparse|]. exists out. split; [exact Hout|]. exact Hsev.
Defined.

(** C8.  The code does not keep the [LogEntry] invariants that [types.ts]
    declares and that the function signatures promise.  From the 2xx
    response whose [entries] holds the one entry
    [{severity: DEFAULT, textPayload: tick}], [fetchGCPLogs] returns an
    entry whose severity is [DEFAULT], not one of the eight values of the
    enum, and whose timestamp is undefined, not a string.  From the model
    text of an entry with severity [fatal] and timestamp [yesterday],
    [parseLogs] returns that entry as it is. *)
Theorem normalizers_break_LogEntry_invariants :
  let body := VObj [("entries", VArr [Samples.default_severity_entry])] in
  let r := {| status := 200; responseText := Samples.show_json body |} in
  let data := VArr [ VObj [ ("timestamp", VStr "yesterday");
                            ("severity", VStr "fatal");
                            ("service", VStr "db");
                            ("message", VStr "down") ] ] in
  let J' := Samples.table_JSON
              [(Samples.show_json body, body); (Samples.show_json data, data)] in
  (∃ out,
      @fetchGCPLogs J' (Samples.respond r) "my-project" "ya29.token" = Ok [out]
      ∧ lookup_prop out "severity" = VStr "DEFAULT"
      ∧ Types.is_Severity (lookup_prop out "severity") = false
      ∧ lookup_prop out "timestamp" = VUndefined
      ∧ Types.is_string (lookup_prop out "timestamp") = false)
  ∧ (∃ out,
      @parseLogs J' (Samples.answer (Some (Samples.show_json data))) "db down"
        = Ok (VArr [out])
      ∧ lookup_prop out "severity" = VStr "fatal"
      ∧ Types.is_Severity (lookup_prop out "severity") = false
      ∧ lookup_prop out "timestamp" = VStr "yesterday").
Proof.
  intros body r data J'. split.
  - eexists. split; [vm_compute; reflexivity|]. repeat split.
  - eexists. split; [vm_compute; reflexivity|]. repeat split.
Qed.

End Normalizer.

(** ** The completion calls *)

Section Completions.
Import JS GeminiService.

(** C5, as the specification states it, fails for the cost report: an empty
    text makes [generateCostReport] throw, and so does a text that is not
    JSON. *)
Lemma cost_report_throws_on_malformed_output :
  (∀ J' : JSON,
      @generateCostReport J' (Samples.answer None) "demo-project" (Some hobby) =
        Throw (Error "Failed to generate cost report"))
  ∧ (∀ J' : JSON,
      @generateCostReport J' (Samples.answer (Some "")) "demo-project" None =
        Throw (Error "Failed to generate cost report"))
  ∧ @generateCostReport (Samples.table_JSON [])
      (Samples.answer (Some "Sorry, I cannot do that.")) "demo-project" None =
        Throw SyntaxError.
Proof. repeat split. Qed.

(** C5, amended.  When the model's output is malformed (an empty text, or a
    text that is not JSON), [parseLogs] returns the empty sequence and
    [generateReport] returns a default summary with empty lists, neither
    throwing; [generateCostReport] does not recover: it throws
    [Failed to generate cost report] on an empty text and lets the parse
    error through otherwise. *)
Theorem malformed_output_recovery `{J : JSON} (ai : GoogleGenAI)
    (response : GenerateContentResponse) :
  Spec.malformed response = true →
  (∀ rawLogs,
     generateContent ai (parseLogs_request rawLogs) = Ok response →
     parseLogs ai rawLogs = Ok (VArr []))
  ∧ (∀ logs,
     generateContent ai (generateReport_request logs) = Ok response →
     generateReport ai logs =
       Ok (fallbackSummary
             (if no_text response then "Could not generate report."
              else "Error parsing AI response.")))
  ∧ (∀ pid scale,
     generateContent ai (generateCostReport_request pid (default hobby scale)) = Ok response →
     generateCostReport ai pid scale =
       Throw (if no_text response then Error "Failed to generate cost report"
              else SyntaxError)).
Proof.
  unfold Spec.malformed. intros Hbad.
  assert (no_text response = false →
          parse (default "" (text response)) = Throw SyntaxError) as Hparse.
  { intros Htext. rewrite Htext in Hbad. simpl in Hbad. unfold parse.
    destruct (JSON_parse (default "" (text response))); [discriminate|reflexivity]. }
  split; [|split].
  - intros rawLogs Hai. unfold parseLogs. rewrite Hai. simpl.
    destruct (no_text response); [reflexivity|].
    rewrite Hparse by reflexivity. reflexivity.
  - intros logs Hai. unfold generateReport. rewrite Hai. simpl.
    destruct (no_text response); [reflexivity|].
    rewrite Hparse by reflexivity. reflexivity.
  - intros pid scale Hai. unfold generateCostReport. rewrite Hai. simpl.
    destruct (no_text response); [reflexivity|].
    apply Hparse. reflexivity.
Qed.

Lemma malformed_output_recovery_witness :
  let J' := Samples.table_JSON [] in
  let ai := Samples.answer (Some "Sorry, I cannot do that.") in
  @parseLogs J' ai "boot ok" = Ok (VArr [])
  ∧ @generateReport J' ai [] = Ok (fallbackSummary "Error parsing AI response.")
  ∧ @generateCostReport J' ai "demo-project" None = Throw SyntaxError.
Proof.
  intros J' ai.
  destruct (@malformed_output_recovery J' ai
              {| text := Some "Sorry, I cannot do that." |} eq_refl)
    as (Hlogs & Hreport & Hcost).
  split; [|split].
  - apply Hlogs. reflexivity.
  - apply (Hreport []). reflexivity.
  - apply (Hcost "demo-project" None). reflexivity.
Defined.

(** C10.  The summarisation request is built from the first 100 entries of
    the sequence and from nothing else: two sequences that agree on their
    first 100 entries give the same request, hence the same outcome from any
    completion client, and the request for a sequence is the request for its
    first 100 entries. *)
Theorem report_reads_first_100_only `{J : JSON} (ai : GoogleGenAI)
    (logs logs' : list value) :
  take 100 logs = take 100 logs' →
  generateReport_request logs = generateReport_request logs'
  ∧ generateReport ai logs = generateReport ai logs'
  ∧ generateReport_request logs = generateReport_request (take 100 logs)
  ∧ (length (take 100 logs) ≤ 100)%nat.
Proof.
  intros Hsame.
  assert (generateReport_request logs = generateReport_request logs') as Hreq.
  { unfold generateReport_request. rewrite Hsame. reflexivity. }
  split; [exact Hreq|]. split.
  - unfold generateReport. rewrite Hreq. reflexivity.
  - split.
    + unfold generateReport_request. rewrite take_take. reflexivity.
    + rewrite length_take. lia.
Qed.

Lemma report_reads_first_100_only_witness :
  let J' := Samples.table_JSON [] in
  let ai := Samples.answer (Some "Sorry, I cannot do that.") in
  let logs := (replicate 100 (VObj [("message", VStr "ok")])
               ++ [VObj [("message", VStr "disk full")]])%list in
  let logs' := (replicate 100 (VObj [("message", VStr "ok")])
                ++ [VObj [("message", VStr "all quiet")]; VNull])%list in
  @generateReport_request J' logs = @generateReport_request J' logs'
  ∧ @generateReport J' ai logs = @generateReport J' ai logs'.
Proof.
  intros J' ai logs logs'.
  destruct (@report_reads_first_100_only J' ai logs logs') as (Hreq & Hout & _).
  - vm_compute. reflexivity.
  - split; [exact Hreq|exact Hout].
Defined.

End Completions.

(** * Further properties *)

(** ** The provider: mount, reload, clearing *)

Section Provider.
Import SecretsContext Facts.

Implicit Types (env : Environment) (st : State) (key : string).

Lemma initialize_fallback env st :
  scan env pidKeys = None ∨ scan env tokenKeys = None →
  initialize env st =
    {| projectId :=
         if truthy_str (sessionStorage st !! "gcp_project_id")
         then default "" (sessionStorage st !! "gcp_project_id")
         else projectId st;
       accessToken :=
         if truthy_str (sessionStorage st !! "gcp_access_token")
         then default "" (sessionStorage st !! "gcp_access_token")
         else accessToken st;
       isEnvManaged := isEnvManaged st;
       sessionStorage := sessionStorage st |}.
Proof.
  intros Hmiss. unfold initialize.
  rewrite (loadFromEnv_missing env st Hmiss).
  destruct st as [p t m store]. simpl.
  destruct (store !! "gcp_project_id") as [sp|];
    destruct (store !! "gcp_access_token") as [stok|]; simpl;
    repeat match goal with
           | |- context [String.eqb ?a ""] => destruct (String.eqb a "")
           end;
    reflexivity.
Qed.

Lemma initial_fields (store : gmap string string) :
  projectId (initial store) = "" ∧ accessToken (initial store) = ""
  ∧ isEnvManaged (initial store) = false ∧ sessionStorage (initial store) = store.
Proof. repeat split. Qed.

(** X1.  On mount the environment comes first: with a complete pair in the
    environment the provider takes it, whatever session storage holds.
    Otherwise each of the two fields is restored from session storage on
    its own (a stored empty string counts as nothing), the other field,
    the flag and the storage staying as they were. *)
Theorem initialize_env_then_storage env st :
  match scan env pidKeys, scan env tokenKeys with
  | Some pid, Some token =>
      initialize env st = snd (loadFromEnv env st)
      ∧ projectId (initialize env st) = pid
      ∧ accessToken (initialize env st) = token
      ∧ isEnvManaged (initialize env st) = true
  | _, _ =>
      projectId (initialize env st) =
        (if truthy_str (sessionStorage st !! "gcp_project_id")
         then default "" (sessionStorage st !! "gcp_project_id")
         else projectId st)
      ∧ accessToken (initialize env st) =
        (if truthy_str (sessionStorage st !! "gcp_access_token")
         then default "" (sessionStorage st !! "gcp_access_token")
         else accessToken st)
      ∧ isEnvManaged (initialize env st) = isEnvManaged st
      ∧ sessionStorage (initialize env st) = sessionStorage st
  end.
Proof.
  destruct (scan env pidKeys) as [pid|] eqn:Hp;
    [destruct (scan env tokenKeys) as [token|] eqn:Ht|].
  - unfold initialize. rewrite (loadFromEnv_found env st pid token Hp Ht).
    repeat split.
  - rewrite (initialize_fallback env st) by (by right). repeat split.
  - rewrite (initialize_fallback env st) by (by left). repeat split.
Qed.

(** X2.  Credentials entered by hand survive a page reload: when the
    environment holds no complete pair, the provider that starts over the
    same session storage has the same project id and token, is not
    environment-managed, and has secrets exactly when it had before. *)
Theorem credentials_survive_reload env st (pid token : string) :
  scan env pidKeys = None ∨ scan env tokenKeys = None →
  projectId (reload env (setSecrets pid token st)) = pid
  ∧ accessToken (reload env (setSecrets pid token st)) = token
  ∧ isEnvManaged (reload env (setSecrets pid token st)) = false
  ∧ hasSecrets (reload env (setSecrets pid token st)) =
      hasSecrets (setSecrets pid token st).
Proof.
  intros Hmiss. unfold reload. rewrite (initialize_fallback _ _ Hmiss).
  unfold hasSecrets. simpl.
  rewrite lookup_insert_ne by discriminate.
  rewrite !lookup_insert_eq. simpl.
  destruct (String.eqb pid "") eqn:Ep; destruct (String.eqb token "") eqn:Et;
    simpl; rewrite ?Ep, ?Et;
    try apply String.eqb_eq in Ep; try apply String.eqb_eq in Et;
    subst; repeat split.
Qed.

Lemma credentials_survive_reload_witness :
  projectId (reload MoreSamples.env_empty MoreSamples.with_secrets) = "my-project"
  ∧ accessToken (reload MoreSamples.env_empty MoreSamples.with_secrets) = "ya29.token"
  ∧ isEnvManaged (reload MoreSamples.env_empty MoreSamples.with_secrets) = false
  ∧ hasSecrets (reload MoreSamples.env_empty MoreSamples.with_secrets) = true.
Proof.
  apply (credentials_survive_reload MoreSamples.env_empty (initial ∅)
           "my-project" "ya29.token").
  left. reflexivity.
Defined.

(** X3.  Clearing forgets everything: from any state the provider has no
    secrets, both session storage keys are gone while every other key is
    kept, and a reload does not bring the credentials back unless the
    environment provides a complete pair. *)
Theorem clearSecrets_forgets env st :
  scan env pidKeys = None ∨ scan env tokenKeys = None →
  hasSecrets (clearSecrets st) = false
  ∧ isEnvManaged (clearSecrets st) = false
  ∧ sessionStorage (clearSecrets st) !! "gcp_project_id" = None
  ∧ sessionStorage (clearSecrets st) !! "gcp_access_token" = None
  ∧ (∀ k, sessionStorage (clearSecrets st) !! k =
          if decide (k = "gcp_access_token") then None
          else if decide (k = "gcp_project_id") then None
          else sessionStorage st !! k)
  ∧ projectId (reload env (clearSecrets st)) = ""
  ∧ accessToken (reload env (clearSecrets st)) = ""
  ∧ hasSecrets (reload env (clearSecrets st)) = false.
Proof.
  intros Hmiss.
  assert (sessionStorage (clearSecrets st) !! "gcp_project_id" = None) as Hp.
  { simpl. rewrite lookup_delete_ne by discriminate. apply lookup_delete_eq. }
  assert (sessionStorage (clearSecrets st) !! "gcp_access_token" = None) as Ht.
  { simpl. apply lookup_delete_eq. }
  split; [reflexivity|]. split; [reflexivity|].
  split; [exact Hp|]. split; [exact Ht|]. split.
  { intros k. simpl. rewrite lookup_delete.
    destruct (decide ("gcp_access_token" = k)) as [<-|Hk].
    - reflexivity.
    - rewrite decide_False by congruence. rewrite lookup_delete.
      destruct (decide ("gcp_project_id" = k)) as [<-|Hk'].
      + reflexivity.
      + rewrite decide_False by congruence. reflexivity. }
  unfold reload. rewrite (initialize_fallback _ _ Hmiss).
  unfold hasSecrets. cbn [projectId accessToken initial sessionStorage].
  cbn [sessionStorage] in Hp, Ht. rewrite Hp, Ht. repeat split.
Qed.

Lemma clearSecrets_forgets_witness :
  hasSecrets (clearSecrets MoreSamples.with_secrets) = false
  ∧ hasSecrets (reload MoreSamples.env_empty (clearSecrets MoreSamples.with_secrets)) = false.
Proof.
  destruct (clearSecrets_forgets MoreSamples.env_empty MoreSamples.with_secrets)
    as (H1 & _ & _ & _ & _ & _ & _ & H2).
  - left. reflexivity.
  - split; [exact H1|exact H2].
Defined.

(** X4.  A successful environment load always leaves usable credentials:
    the provider has secrets after [loadFromEnv] exactly when the load
    succeeded or it had secrets before. *)
Theorem loadFromEnv_secrets env st :
  hasSecrets (snd (loadFromEnv env st)) = fst (loadFromEnv env st) || hasSecrets st.
Proof.
  destruct (scan env pidKeys) as [pid|] eqn:Hp;
    [destruct (scan env tokenKeys) as [token|] eqn:Ht|].
  - rewrite (loadFromEnv_found env st pid token Hp Ht).
    pose proof (scan_truthy _ _ _ Hp) as Tp.
    pose proof (scan_truthy _ _ _ Ht) as Tt.
    unfold hasSecrets. simpl in *. rewrite Tp, Tt. reflexivity.
  - rewrite (loadFromEnv_missing env st) by (by right). reflexivity.
  - rewrite (loadFromEnv_missing env st) by (by left). reflexivity.
Qed.

Lemma getEnvValue_held env key v :
  getEnvValue env key = Some v → held env key v.
Proof.
  unfold getEnvValue, held.
  destruct (truthy_str (process_env env !! key)); [intros E; by left|].
  destruct (import_meta env) as [[[e|]]|];
    destruct (window env) as [[[e'|]]|]; simpl;
    try destruct (truthy_str (e !! key));
    try destruct (e !! key) as [x|] eqn:He;
    try destruct (truthy_str (e' !! key));
    intros E; try discriminate; simplify_eq;
    first [ right; left; eexists _, _; repeat split; eassumption
          | right; right; eexists _, _; repeat split; eassumption ].
Qed.

Lemma truthy_str_false (o : option string) :
  truthy_str o = false → ∀ v, o = Some v → v = "".
Proof.
  intros Hf v ->. simpl in Hf. destruct (String.eqb_spec v ""); [assumption|discriminate].
Qed.

Lemma getEnvValue_None_held env key v :
  getEnvValue env key = None → held env key v → v = "".
Proof.
  unfold getEnvValue, held.
  destruct (truthy_str (process_env env !! key)) eqn:Hp.
  { intros E. rewrite E in Hp. discriminate. }
  intros Hnone [Hv | [(meta & e & Hm & He & Hv) | (w & e & Hw & He & Hv)]].
  - by apply (truthy_str_false _ Hp).
  - rewrite Hm, He in Hnone.
    destruct (truthy_str (e !! key)) eqn:Ht.
    + rewrite Hv in Hnone. discriminate.
    + by apply (truthy_str_false _ Ht).
  - rewrite Hw, He in Hnone.
    destruct (truthy_str (e !! key)) eqn:Ht.
    + rewrite Hv in Hnone.
      destruct (import_meta env) as [[[e0|]]|]; simpl in Hnone;
        try destruct (truthy_str (e0 !! key)); try discriminate;
        destruct (e0 !! key); discriminate.
    + by apply (truthy_str_false _ Ht).
Qed.

Lemma scan_Some_key env (keys : list string) v :
  scan env keys = Some v → ∃ key, key ∈ keys ∧ getEnvValue env key = Some v.
Proof.
  induction keys as [|k rest IH]; simpl; [discriminate|].
  destruct (truthy_str (getEnvValue env k)) eqn:Hk.
  - intros E. exists k. split; [apply list_elem_of_here|exact E].
  - intros E. destruct (IH E) as (key & Hin & Hv).
    exists key. split; [by apply list_elem_of_further|exact Hv].
Qed.

Lemma scan_None_key env (keys : list string) key :
  scan env keys = None → key ∈ keys → getEnvValue env key = None.
Proof.
  rewrite scan_first_hit.
  induction keys as [|k rest IH]; intros Hnone Hin.
  { by apply elem_of_nil in Hin. }
  simpl in Hnone. destruct (getEnvValue env k) as [v|] eqn:Hk; [discriminate|].
  apply elem_of_cons in Hin as [->|Hin]; [exact Hk|by apply IH].
Qed.

Lemma scan_found_iff env (keys : list string) :
  (∃ v, scan env keys = Some v)
  ↔ ∃ key v, key ∈ keys ∧ v ≠ "" ∧ held env key v.
Proof.
  split.
  - intros (v & Hv). destruct (scan_Some_key _ _ _ Hv) as (key & Hin & Hk).
    exists key, v. split; [exact Hin|]. split.
    + apply scan_truthy in Hv. apply truthy_str_Some in Hv as (v' & [= <-] & Hne).
      exact Hne.
    + by apply getEnvValue_held.
  - intros (key & v & Hin & Hne & Hheld).
    destruct (scan env keys) as [v'|] eqn:Hs; [by exists v'|].
    exfalso. apply Hne.
    apply (getEnvValue_None_held env key v); [|exact Hheld].
    by apply (scan_None_key env keys).
Qed.

(** X5.  The scan invents nothing: a value it finds is not empty and is held
    by one of the three sources under one of the scanned keys. *)
Theorem scan_value_from_source env (keys : list string) (v : string) :
  scan env keys = Some v →
  v ≠ "" ∧ ∃ key, key ∈ keys ∧ held env key v.
Proof.
  intros Hv. split.
  - apply scan_truthy in Hv. apply truthy_str_Some in Hv as (v' & [= <-] & Hne).
    exact Hne.
  - destruct (scan_Some_key _ _ _ Hv) as (key & Hin & Hk).
    exists key. split; [exact Hin|by apply getEnvValue_held].
Qed.

Lemma scan_value_from_source_witness :
  "my-project" ≠ ""
  ∧ ∃ key, key ∈ pidKeys ∧ held Samples.env_mixed key "my-project".
Proof.
  apply (scan_value_from_source Samples.env_mixed pidKeys "my-project").
  vm_compute. reflexivity.
Defined.

(** X6.  [loadFromEnv] succeeds exactly when some source holds a non-empty
    value under one of the three project-id names and some source holds a
    non-empty value under one of the three token names; the prior state
    plays no part. *)
Theorem loadFromEnv_succeeds_iff env st :
  fst (loadFromEnv env st) = true
  ↔ (∃ key v, key ∈ pidKeys ∧ v ≠ "" ∧ held env key v)
    ∧ (∃ key v, key ∈ tokenKeys ∧ v ≠ "" ∧ held env key v).
Proof.
  rewrite <- !scan_found_iff. split.
  - intros Hok.
    destruct (scan env pidKeys) as [pid|] eqn:Hp;
      [destruct (scan env tokenKeys) as [token|] eqn:Ht|].
    + split; eauto.
    + rewrite (loadFromEnv_missing env st) in Hok by (by right). discriminate.
    + rewrite (loadFromEnv_missing env st) in Hok by (by left). discriminate.
  - intros [(pid & Hp) (token & Ht)].
    rewrite (loadFromEnv_found env st pid token Hp Ht). reflexivity.
Qed.

End Provider.

(** ** The credentials form *)

Section Form.
Import SecretsContext SecretsInput.

(** X8.  Saving with an empty field changes nothing and reports nothing;
    a save that goes through stores exactly the two fields and marks the
    credential manual.  So the form can never take valid credentials
    away: the provider has secrets afterwards exactly when the save went
    through or it had them before. *)
Theorem handleSave_guard (form : Form) (secrets : State) :
  snd (handleSave form secrets) =
    negb (String.eqb (pid form) "") && negb (String.eqb (token form) "")
  ∧ fst (handleSave form secrets) =
      (if snd (handleSave form secrets)
       then setSecrets (pid form) (token form) secrets else secrets)
  ∧ hasSecrets (fst (handleSave form secrets)) =
      snd (handleSave form secrets) || hasSecrets secrets.
Proof.
  unfold handleSave, hasSecrets.
  destruct (String.eqb (pid form) "") eqn:Ep;
    destruct (String.eqb (token form) "") eqn:Et; simpl;
    rewrite ?Ep, ?Et; repeat split.
Qed.

(** X9.  Pressing Save on the form that shows environment-loaded
    credentials keeps the credentials and the storage as they are and only
    turns the environment-managed flag off. *)
Theorem save_after_env_load_demotes (env : Environment) (form : Form) (st : State) :
  fst (loadFromEnv env st) = true →
  handleSave (syncForm (snd (loadFromEnv env st)) form) (snd (loadFromEnv env st)) =
    ({| projectId := projectId (snd (loadFromEnv env st));
        accessToken := accessToken (snd (loadFromEnv env st));
        isEnvManaged := false;
        sessionStorage := sessionStorage (snd (loadFromEnv env st)) |},
     true).
Proof.
  intros Hok.
  destruct (scan env pidKeys) as [p|] eqn:Hp;
    [destruct (scan env tokenKeys) as [t|] eqn:Ht|].
  - rewrite (loadFromEnv_found env st p t Hp Ht).
    pose proof (scan_truthy _ _ _ Hp) as Tp.
    pose proof (scan_truthy _ _ _ Ht) as Tt.
    unfold handleSave, syncForm, setSecrets. simpl in *. rewrite Tp, Tt. simpl.
    do 2 f_equal. apply map_eq. intros k.
    rewrite !lookup_insert. repeat case_decide; reflexivity.
  - rewrite (loadFromEnv_missing env st) in Hok by (by right). discriminate.
  - rewrite (loadFromEnv_missing env st) in Hok by (by left). discriminate.
Qed.

Lemma save_after_env_load_demotes_witness :
  let loaded := snd (loadFromEnv Samples.env_mixed (initial ∅)) in
  let form := {| pid := ""; token := ""; showToken := false; envStatusMsg := None |} in
  handleSave (syncForm loaded form) loaded =
    ({| projectId := "my-project"; accessToken := "ya29.token";
        isEnvManaged := false; sessionStorage := sessionStorage loaded |},
     true).
Proof.
  intros loaded form.
  apply (save_after_env_load_demotes Samples.env_mixed form (initial ∅)).
  vm_compute. reflexivity.
Defined.

End Form.

(** ** The logging fetch: every way it fails *)

Section FetchFailures.
Import JS GeminiService.

Implicit Types (entry out data : value) (xs ys : list value).

Lemma mapM_mapEntry_dead `{J : JSON} xs :
  Exists (λ entry, nullish entry = true) xs →
  mapM mapEntry xs = Throw TypeError.
Proof.
  induction xs as [|entry rest IH]; intros Hdead; [by apply Exists_nil in Hdead|].
  simpl. destruct (nullish entry) eqn:Hn.
  - rewrite (mapEntry_dead entry Hn). reflexivity.
  - rewrite (mapEntry_live entry Hn). simpl.
    apply Exists_cons in Hdead as [Hd|Hd]; [congruence|].
    rewrite (IH Hd). reflexivity.
Qed.

(** X10.  Transport failures reach the caller as they are: when the request
    itself fails, [fetchGCPLogs] fails with the very same error, and when a
    2xx response carries a body that is not JSON it fails with the
    SyntaxError of the parse. *)
Theorem fetchGCPLogs_transport_failures `{J : JSON} (fetch : Fetch) (pid tok : string) :
  (∀ e, fetch entries_list_url (fetchGCPLogs_init pid tok) = Throw e →
        fetchGCPLogs fetch pid tok = Throw e)
  ∧ (∀ r, fetch entries_list_url (fetchGCPLogs_init pid tok) = Ok r →
          (200 ≤ status r ≤ 299)%N →
          JSON_parse (responseText r) = None →
          fetchGCPLogs fetch pid tok = Throw SyntaxError).
Proof.
  split.
  - intros e Hfetch. unfold fetchGCPLogs. rewrite Hfetch. reflexivity.
  - intros r Hfetch Hok Hparse.
    rewrite (fetchGCPLogs_settled fetch pid tok r Hfetch).
    apply ok_status in Hok. rewrite Hok. unfold parse. rewrite Hparse. reflexivity.
Qed.

Lemma fetchGCPLogs_transport_failures_witness :
  let J' := Samples.table_JSON [] in
  let offline : Fetch := λ _ _, Throw (Rejected "Failed to fetch") in
  let page := {| status := 200; responseText := "<html>Sign in</html>" |} in
  @fetchGCPLogs J' offline "my-project" "ya29.token" = Throw (Rejected "Failed to fetch")
  ∧ @fetchGCPLogs J' (Samples.respond page) "my-project" "ya29.token" = Throw SyntaxError.
Proof.
  intros J' offline page. split.
  - destruct (@fetchGCPLogs_transport_failures J' offline "my-project" "ya29.token")
      as [Hreject _].
    apply Hreject. reflexivity.
  - destruct (@fetchGCPLogs_transport_failures J' (Samples.respond page)
                "my-project" "ya29.token") as [_ Hbody].
    apply (Hbody page).
    + reflexivity.
    + simpl. lia.
    + reflexivity.
Defined.

(** X11.  A 2xx response of the wrong shape is a TypeError, not an empty
    result: a body that is JSON [null]; an [entries] that counts as true
    but is not an array (an object, a string, or the [entries] method that
    a top-level array inherits); and an [entries] array with a [null]
    entry in it, in which case no entry at all is returned. *)
Theorem fetchGCPLogs_shape_failures `{J : JSON} (fetch : Fetch) (pid tok : string)
    (r : Response) data :
  fetch entries_list_url (fetchGCPLogs_init pid tok) = Ok r →
  (200 ≤ status r ≤ 299)%N →
  JSON_parse (responseText r) = Some data →
  nullish data = true
  ∨ (truthy (lookup_prop data "entries") = true
     ∧ ∀ xs, lookup_prop data "entries" ≠ VArr xs)
  ∨ (∃ xs, lookup_prop data "entries" = VArr xs
           ∧ Exists (λ entry, nullish entry = true) xs) →
  fetchGCPLogs fetch pid tok = Throw TypeError.
Proof.
  intros Hfetch Hok Hparse Hshape.
  rewrite (fetchGCPLogs_settled fetch pid tok r Hfetch).
  apply ok_status in Hok. rewrite Hok. unfold parse. rewrite Hparse. simpl.
  destruct Hshape as [Hnull | [[Htrue Hnot] | (xs & Hxs & Hdead)]].
  - unfold member. rewrite Hnull. reflexivity.
  - assert (nullish data = false) as Hdata.
    { destruct data; try reflexivity; simpl in Htrue; discriminate. }
    rewrite (member_live data "entries" Hdata). simpl. rewrite Htrue. simpl.
    destruct (lookup_prop data "entries") as [| | | | |xs| |]; try reflexivity.
    exfalso. by apply (Hnot xs).
  - assert (nullish data = false) as Hdata.
    { destruct data; try reflexivity; simpl in Hxs; discriminate. }
    rewrite (member_live data "entries" Hdata). simpl. rewrite Hxs. simpl.
    apply mapM_mapEntry_dead, Hdead.
Qed.

Lemma fetchGCPLogs_shape_failures_witness :
  let bare := VArr [VObj [("textPayload", VStr "boot")]] in
  let holed := VObj [("entries", VArr [VObj [("textPayload", VStr "boot")]; VNull])] in
  let J' := Samples.table_JSON
              [ ("null", VNull);
                (Samples.show_json bare, bare);
                (Samples.show_json holed, holed) ] in
  let reply body := Samples.respond {| status := 200; responseText := body |} in
  @fetchGCPLogs J' (reply "null") "my-project" "ya29.token" = Throw TypeError
  ∧ @fetchGCPLogs J' (reply (Samples.show_json bare)) "my-project" "ya29.token"
    = Throw TypeError
  ∧ @fetchGCPLogs J' (reply (Samples.show_json holed)) "my-project" "ya29.token"
    = Throw TypeError.
Proof.
  intros bare holed J' reply. split; [|split].
  - apply (@fetchGCPLogs_shape_failures J' (reply "null") "my-project" "ya29.token"
             {| status := 200; responseText := "null" |} VNull);
      [reflexivity | simpl; lia | reflexivity | left; reflexivity].
  - apply (@fetchGCPLogs_shape_failures J' (reply (Samples.show_json bare))
             "my-project" "ya29.token"
             {| status := 200; responseText := Samples.show_json bare |} bare);
      [reflexivity | simpl; lia | vm_compute; reflexivity |].
    right; left. split; [reflexivity|]. intros xs. discriminate.
  - apply (@fetchGCPLogs_shape_failures J' (reply (Samples.show_json holed))
             "my-project" "ya29.token"
             {| status := 200; responseText := Samples.show_json holed |} holed);
      [reflexivity | simpl; lia | vm_compute; reflexivity |].
    right; right. eexists. split; [reflexivity|].
    apply Exists_cons_tl, Exists_cons_hd. reflexivity.
Defined.

Lemma or_else_truthy (a b : value) :
  truthy b = true → truthy (or_else a b) = true.
Proof. unfold or_else. destruct (truthy a) eqn:Ha; [rewrite Ha|]; done. Qed.

(** X12.  Every canonical entry built from a native entry has exactly the
    five fields timestamp, severity, service, message, traceId, in this
    order; its service and its severity always count as true (they are
    never missing or empty); and its traceId is the entry's [trace] as it
    is.  The callback fails only on a [null] entry. *)
Theorem mapped_entry_shape `{J : JSON} entry :
  match mapEntry entry with
  | Ok out =>
      Facts.keys_of out = ["timestamp"; "severity"; "service"; "message"; "traceId"]
      ∧ truthy (lookup_prop out "service") = true
      ∧ truthy (lookup_prop out "severity") = true
      ∧ lookup_prop out "traceId" = lookup_prop entry "trace"
  | Throw e => nullish entry = true
  end.
Proof.
  destruct (nullish entry) eqn:Hn.
  - rewrite (mapEntry_dead entry Hn). reflexivity.
  - rewrite (mapEntry_live entry Hn).
    unfold Spec.normalized, Spec.serviceCandidates. simpl.
    rewrite !first_truthy_cons, first_truthy_nil.
    split; [reflexivity|]. split; [|split].
    + repeat apply or_else_truthy. reflexivity.
    + apply or_else_truthy. reflexivity.
    + unfold Spec.path. simpl. apply opt_member_live, Hn.
Qed.

End FetchFailures.

(** ** The completion calls: rejection, success, prompts *)

Section CompletionsMore.
Import JS GeminiService.

Lemma generateReport_request_context `{J : JSON} (logs : list value) :
  generateReport_request logs =
    App.reportRequest (JSON_stringify (VArr (take 100 logs))).
Proof. reflexivity. Qed.

Lemma generateReport_summaryOf `{J : JSON} (ai : GoogleGenAI) (logs : list value) :
  generateReport ai logs =
    (response ← generateContent ai (generateReport_request logs);
     App.summaryOf response).
Proof. reflexivity. Qed.

Lemma summaryOf_ok `{J : JSON} (response : GenerateContentResponse) :
  ∃ v, App.summaryOf response = Ok v.
Proof.
  unfold App.summaryOf. destruct (no_text response); [eauto|].
  destruct (parse (default "" (text response))); simpl; eauto.
Qed.

(** X13.  [parseLogs] and [generateReport] throw exactly when the completion
    call itself is rejected, and then with its error; once the call has
    answered they return a value whatever the answer.  [generateDemoLogs]
    passes a rejection on likewise and otherwise returns the answer's text,
    be it undefined. *)
Theorem completions_throw_only_on_rejection `{J : JSON} (ai : GoogleGenAI)
    (rawLogs : string) (logs : list value) :
  match generateContent ai (parseLogs_request rawLogs) with
  | Throw e => parseLogs ai rawLogs = Throw e
  | Ok response => ∃ v, parseLogs ai rawLogs = Ok v
  end
  ∧ match generateContent ai (generateReport_request logs) with
    | Throw e => generateReport ai logs = Throw e
    | Ok response => ∃ v, generateReport ai logs = Ok v
    end
  ∧ match generateContent ai
            {| model := "gemini-2.5-flash"; contents := demoPrompt; config := None |} with
    | Throw e => generateDemoLogs ai = Throw e
    | Ok response => generateDemoLogs ai = Ok (text response)
    end.
Proof.
  split; [|split].
  - unfold parseLogs.
    destruct (generateContent ai (parseLogs_request rawLogs)) as [response|e];
      simpl; [|reflexivity].
    destruct (no_text response); [eauto|].
    destruct (parse (default "" (text response))); simpl; eauto.
  - rewrite generateReport_summaryOf.
    destruct (generateContent ai (generateReport_request logs)) as [response|e];
      simpl; [apply summaryOf_ok|reflexivity].
  - unfold generateDemoLogs.
    destruct (generateContent ai _) as [response|e]; reflexivity.
Qed.

(** X14.  Neither report call checks what the model sent: when the answer
    is a non-empty text that parses, [generateReport] and
    [generateCostReport] return the parsed value as it is, whether or not
    it has the required fields.  Leaving the scale out is asking for
    [hobby]. *)
Theorem reports_return_model_json `{J : JSON} (ai : GoogleGenAI)
    (response : GenerateContentResponse) (t : string) (data : value) :
  text response = Some t → t ≠ "" → JSON_parse t = Some data →
  (∀ logs,
     generateContent ai (generateReport_request logs) = Ok response →
     generateReport ai logs = Ok data)
  ∧ (∀ pid scale,
     generateContent ai (generateCostReport_request pid (default hobby scale)) = Ok response →
     generateCostReport ai pid scale = Ok data)
  ∧ (∀ pid, generateCostReport ai pid None = generateCostReport ai pid (Some hobby)).
Proof.
  intros Ht Hne Hparse.
  assert (no_text response = false) as Hno.
  { unfold no_text. rewrite Ht. simpl.
    destruct (String.eqb_spec t ""); [contradiction|reflexivity]. }
  split; [|split].
  - intros logs Hai. unfold generateReport. rewrite Hai. simpl.
    rewrite Hno, Ht. simpl. unfold parse. rewrite Hparse. reflexivity.
  - intros pid scale Hai. unfold generateCostReport. rewrite Hai. simpl.
    rewrite Hno, Ht. simpl. unfold parse. rewrite Hparse. reflexivity.
  - reflexivity.
Qed.

Lemma reports_return_model_json_witness :
  let J' := Samples.table_JSON [("{}", VObj [])] in
  let ai := Samples.answer (Some "{}") in
  @generateReport J' ai [] = Ok (VObj [])
  ∧ @generateCostReport J' ai "my-project" (Some enterprise) = Ok (VObj []).
Proof.
  intros J' ai.
  destruct (@reports_return_model_json J' ai {| text := Some "{}" |} "{}" (VObj []))
    as (Hreport & Hcost & _); [reflexivity | discriminate | reflexivity |].
  split.
  - apply Hreport. reflexivity.
  - apply (Hcost "my-project" (Some enterprise)). reflexivity.
Defined.

(** X15.  A sequence of at most 100 entries is summarised whole: the
    request carries the serialisation of the entire sequence. *)
Theorem short_logs_sent_whole `{J : JSON} (logs : list value) :
  (length logs ≤ 100)%nat →
  generateReport_request logs = App.reportRequest (JSON_stringify (VArr logs)).
Proof.
  intros Hlen. rewrite generateReport_request_context.
  rewrite take_ge by exact Hlen. reflexivity.
Qed.

Lemma short_logs_sent_whole_witness :
  let J' := Samples.table_JSON [] in
  @generateReport_request J' [VObj [("message", VStr "ok")]] =
    App.reportRequest ("[{" ++ dquote ++ "message" ++ dquote ++ ":"
                            ++ dquote ++ "ok" ++ dquote ++ "}]").
Proof.
  intros J'.
  apply (@short_logs_sent_whole J' [VObj [("message", VStr "ok")]]).
  simpl. lia.
Defined.

Lemma contains_refl (s : string) : Spec.contains s s.
Proof. exists "", "". rewrite string_app_empty_r. reflexivity. Qed.

Lemma contains_app_l (sub a s : string) :
  Spec.contains sub s → Spec.contains sub (a ++ s).
Proof.
  intros (before & after & ->). exists (a ++ before), after.
  rewrite string_app_assoc. reflexivity.
Qed.

Lemma contains_app_r (sub s b : string) :
  Spec.contains sub s → Spec.contains sub (s ++ b).
Proof.
  intros (before & after & ->). exists before, (after ++ b).
  rewrite !string_app_assoc. reflexivity.
Qed.

Lemma template_cons (line : string) (next : string) (rest : list string) :
  template (line :: next :: rest) = line ++ nl ++ template (next :: rest).
Proof. reflexivity. Qed.

(** What a line of a template contains, the template contains. *)
Lemma contains_template (sub line : string) (lines : list string) :
  line ∈ lines → Spec.contains sub line → Spec.contains sub (template lines).
Proof.
  intros Hin Hsub. induction lines as [|first rest IH].
  { by apply elem_of_nil in Hin. }
  destruct rest as [|next rest].
  - apply list_elem_of_singleton in Hin as ->. exact Hsub.
  - rewrite template_cons. apply elem_of_cons in Hin as [->|Hin].
    + by apply contains_app_r.
    + apply contains_app_l, contains_app_l, IH, Hin.
Qed.

(** X16.  Each prompt carries its input verbatim, with no escaping: the
    raw logs in full in the structuring prompt, the serialised log context
    in the report prompt, and the project id between double quotes in the
    cost prompt.  All three requests go to the same model and ask for
    JSON. *)
Theorem prompts_embed_their_input `{J : JSON} (rawLogs pid : string)
    (logs : list value) (scale : ProjectScale) :
  Spec.contains rawLogs (contents (parseLogs_request rawLogs))
  ∧ Spec.contains (JSON_stringify (VArr (take 100 logs)))
      (contents (generateReport_request logs))
  ∧ Spec.contains (dquote ++ pid ++ dquote)
      (contents (generateCostReport_request pid scale))
  ∧ Spec.contains (promptContext scale)
      (contents (generateCostReport_request pid scale))
  ∧ Forall (λ request,
              model request = "gemini-2.5-flash"
              ∧ responseMimeType <$> config request = Some "application/json")
      [ parseLogs_request rawLogs; generateReport_request logs;
        generateCostReport_request pid scale ].
Proof.
  split; [|split; [|split; [|split]]].
  - exists (template
              [ "";
                "      Parse the following raw log text into a structured JSON array.";
                "      Extract the timestamp (convert to ISO string), severity (uppercase), service name, and the log message.";
                "      If severity is missing, infer it from the message (default to INFO).";
                "      ";
                "      Raw Logs:";
                "      " ]),
           (nl ++ "    ").
    reflexivity.
  - exists (template
              [ "";
                "      Analyze these structured logs and provide a system health report.";
                "      ";
                "      Logs:";
                "      " ]),
           (nl ++ "    ").
    reflexivity.
  - apply contains_template with
      ("      Generate a simulated monthly cost report for Google Cloud Project "
         ++ dquote ++ pid ++ dquote ++ ".").
    + apply list_elem_of_further, list_elem_of_here.
    + apply contains_app_l.
      exists "", ".". rewrite !string_app_assoc. reflexivity.
  - apply contains_template with ("      " ++ promptContext scale).
    + do 2 apply list_elem_of_further. apply list_elem_of_here.
    + apply contains_app_l, contains_refl.
  - repeat constructor.
Qed.

End CompletionsMore.

(** ** The application: processing pasted and fetched logs *)

Section Application.
Import JS GeminiService App Facts.

(** X17.  The state the two handlers leave, whatever the two services do:
    the [isProcessing] cell is false and the [showSecrets] cell is
    untouched, and either the [currentPage] cell holds [dashboard] and no
    alert was raised, or exactly one alert was raised while the
    [currentPage] and [report] cells are as they were.  [processGCPLogs]
    sets the [logs] cell to the fetched logs in either case.  (Rendering
    the page from these cells is not part of the statement.) *)
Theorem processing_always_settles `{J : JSON} `{U : CodeUnits} (ai : GoogleGenAI) (rawText : string)
    (fetchedLogs : list value) (st : State) :
  (isProcessing (processTextLogs ai rawText st) = false
   ∧ showSecrets (processTextLogs ai rawText st) = showSecrets st
   ∧ ((currentPage (processTextLogs ai rawText st) = dashboard
       ∧ alerts (processTextLogs ai rawText st) = alerts st)
      ∨ (currentPage (processTextLogs ai rawText st) = currentPage st
         ∧ report (processTextLogs ai rawText st) = report st
         ∧ alerts (processTextLogs ai rawText st) = (alerts st ++ [textAlert])%list)))
  ∧ (isProcessing (processGCPLogs ai fetchedLogs st) = false
     ∧ showSecrets (processGCPLogs ai fetchedLogs st) = showSecrets st
     ∧ logs (processGCPLogs ai fetchedLogs st) = VArr fetchedLogs
     ∧ ((currentPage (processGCPLogs ai fetchedLogs st) = dashboard
         ∧ alerts (processGCPLogs ai fetchedLogs st) = alerts st)
        ∨ (currentPage (processGCPLogs ai fetchedLogs st) = currentPage st
           ∧ report (processGCPLogs ai fetchedLogs st) = report st
           ∧ alerts (processGCPLogs ai fetchedLogs st) = (alerts st ++ [gcpAlert])%list))).
Proof.
  split.
  - unfold processTextLogs.
    destruct (parseLogs ai rawText) as [parsed|e]; simpl.
    + destruct (generateReport_any ai parsed) as [analysis|e]; simpl.
      * repeat split. by left.
      * repeat split. by right.
    + repeat split. by right.
  - unfold processGCPLogs.
    destruct (generateReport ai fetchedLogs) as [analysis|e]; simpl.
    + repeat split. by left.
    + repeat split. by right.
Qed.

(** X18.  A failure of the summary after a successful parse leaves a mixed
    state: the parsed logs have already replaced the old ones, while the
    report and the page are still the old ones, and the alert is raised.
    When the parse itself is rejected the logs are not touched. *)
Theorem summary_failure_keeps_new_logs `{J : JSON} `{U : CodeUnits} (ai : GoogleGenAI)
    (rawText : string) (st : State) (parsed : value) (e : exn) :
  parseLogs ai rawText = Ok parsed →
  generateReport_any ai parsed = Throw e →
  logs (processTextLogs ai rawText st) = parsed
  ∧ report (processTextLogs ai rawText st) = report st
  ∧ currentPage (processTextLogs ai rawText st) = currentPage st
  ∧ alerts (processTextLogs ai rawText st) = (alerts st ++ [textAlert])%list
  ∧ (∀ ai' e', parseLogs ai' rawText = Throw e' →
               logs (processTextLogs ai' rawText st) = logs st).
Proof.
  intros Hparse Hreport. unfold processTextLogs.
  rewrite Hparse, Hreport. simpl. repeat split.
  intros ai' e' Hfail. rewrite Hfail. reflexivity.
Qed.

Lemma summary_failure_keeps_new_logs_witness :
  let J' := Samples.table_JSON [("{}", VObj [])] in
  let ai := Samples.answer (Some "{}") in
  logs (@processTextLogs J' MoreSamples.ascii_units ai "boot ok" initial) = VObj []
  ∧ report (@processTextLogs J' MoreSamples.ascii_units ai "boot ok" initial) = VNull
  ∧ currentPage (@processTextLogs J' MoreSamples.ascii_units ai "boot ok" initial) = upload
  ∧ alerts (@processTextLogs J' MoreSamples.ascii_units ai "boot ok" initial) = [textAlert].
Proof.
  intros J' ai.
  destruct (@summary_failure_keeps_new_logs J' MoreSamples.ascii_units ai "boot ok"
              initial (VObj []) TypeError)
    as (H1 & H2 & H3 & H4 & _); [reflexivity | reflexivity |].
  repeat split; assumption.
Defined.

Lemma malformed_recovery_lemma `{J : JSON} (ai : GoogleGenAI)
    (response : GenerateContentResponse) :
  Spec.malformed response = true →
  (∀ rawLogs,
     generateContent ai (parseLogs_request rawLogs) = Ok response →
     parseLogs ai rawLogs = Ok (VArr []))
  ∧ (∀ logs,
     generateContent ai (generateReport_request logs) = Ok response →
     generateReport ai logs =
       Ok (fallbackSummary
             (if no_text response then "Could not generate report."
              else "Error parsing AI response."))).
Proof.
  unfold Spec.malformed. intros Hbad.
  assert (no_text response = false →
          parse (default "" (text response)) = Throw SyntaxError) as Hparse.
  { intros Htext. rewrite Htext in Hbad. simpl in Hbad. unfold parse.
    destruct (JSON_parse (default "" (text response))); [discriminate|reflexivity]. }
  split.
  - intros rawLogs Hai. unfold parseLogs. rewrite Hai. simpl.
    destruct (no_text response); [reflexivity|].
    rewrite Hparse by reflexivity. reflexivity.
  - intros logs Hai. unfold generateReport. rewrite Hai. simpl.
    destruct (no_text response); [reflexivity|].
    rewrite Hparse by reflexivity. reflexivity.
Qed.

(** X19.  Malformed model output never raises an alert: with a model that
    answers every request with the same malformed output, pasted text ends
    on the dashboard with an empty log sequence and the default summary. *)
Theorem malformed_output_reaches_dashboard `{J : JSON} `{U : CodeUnits} (ai : GoogleGenAI)
    (response : GenerateContentResponse) (rawText : string) (st : State) :
  (∀ request, generateContent ai request = Ok response) →
  Spec.malformed response = true →
  processTextLogs ai rawText st =
    {| logs := VArr [];
       report :=
         fallbackSummary
           (if no_text response then "Could not generate report."
            else "Error parsing AI response.");
       isProcessing := false;
       currentPage := dashboard;
       showSecrets := showSecrets st;
       alerts := alerts st |}.
Proof.
  intros Hai Hbad.
  destruct (malformed_recovery_lemma ai response Hbad) as (Hlogs & Hreport).
  unfold processTextLogs.
  rewrite (Hlogs rawText (Hai _)). simpl.
  rewrite (Hreport [] (Hai _)). reflexivity.
Qed.

Lemma malformed_output_reaches_dashboard_witness :
  let J' := Samples.table_JSON [] in
  let ai := Samples.answer (Some "Sorry, I cannot do that.") in
  @processTextLogs J' MoreSamples.ascii_units ai "boot ok" initial =
    {| logs := VArr [];
       report := fallbackSummary "Error parsing AI response.";
       isProcessing := false; currentPage := dashboard;
       showSecrets := false; alerts := [] |}.
Proof.
  intros J' ai.
  apply (@malformed_output_reaches_dashboard J' MoreSamples.ascii_units ai
           {| text := Some "Sorry, I cannot do that." |} "boot ok" initial).
  - intros request. reflexivity.
  - reflexivity.
Defined.

End Application.

(** ** The uploader: connecting to the logging service *)

Section Uploader.
Import JS GeminiService LogUploader Facts.

Lemma fetchGCPLogs_refused `{J : JSON} (fetch : Fetch) (pid tok : string) (r : Response) :
  fetch entries_list_url (fetchGCPLogs_init pid tok) = Ok r →
  (status r < 200 ∨ 299 < status r)%N →
  fetchGCPLogs fetch pid tok =
    Throw (Error ("GCP API Error (" ++ pretty (status r) ++ "): " ++ responseText r)).
Proof.
  intros Hfetch Hbad. rewrite (fetchGCPLogs_settled fetch pid tok r Hfetch).
  destruct (ok r) eqn:Hok; [|reflexivity].
  apply ok_status in Hok. lia.
Qed.

(** X20.  Without secrets nothing is requested: the handler returns at once,
    the state is as before, no logs are handed on, and the outcome is the
    same whatever the network would have answered. *)
Theorem connect_needs_secrets `{J : JSON} `{E : Engine} (fetch fetch' : Fetch)
    (secrets : SecretsContext.State) (st : State) :
  SecretsContext.hasSecrets secrets = false →
  handleGCPConnect fetch secrets st = (st, None)
  ∧ handleGCPConnect fetch secrets st = handleGCPConnect fetch' secrets st.
Proof.
  intros Hno. unfold handleGCPConnect. rewrite Hno. split; reflexivity.
Qed.

Lemma connect_needs_secrets_witness :
  let J' := Samples.table_JSON [] in
  let offline : Fetch := λ _ _, Throw (Rejected "Failed to fetch") in
  @handleGCPConnect J' MoreSamples.engine offline
    (SecretsContext.setSecrets "my-project" "" (SecretsContext.initial ∅)) initial
  = (initial, None).
Proof.
  intros J' offline.
  apply (@connect_needs_secrets J' MoreSamples.engine offline offline).
  reflexivity.
Defined.

(** X21.  Logs are handed to the application only when the fetch succeeded
    with at least one entry, and then no message is shown; in every other
    case with secrets a message is shown and nothing is handed on.  The
    busy flag is cleared either way. *)
Theorem connect_hands_over_nonempty_only `{J : JSON} `{E : Engine} (fetch : Fetch)
    (secrets : SecretsContext.State) (st : State) :
  match snd (handleGCPConnect fetch secrets st) with
  | Some logs =>
      logs ≠ []
      ∧ SecretsContext.hasSecrets secrets = true
      ∧ fetchGCPLogs fetch (SecretsContext.projectId secrets)
          (SecretsContext.accessToken secrets) = Ok logs
      ∧ gcpError (fst (handleGCPConnect fetch secrets st)) = None
      ∧ isFetchingGCP (fst (handleGCPConnect fetch secrets st)) = false
  | None =>
      (SecretsContext.hasSecrets secrets = false
       ∧ fst (handleGCPConnect fetch secrets st) = st)
      ∨ (SecretsContext.hasSecrets secrets = true
         ∧ is_Some (gcpError (fst (handleGCPConnect fetch secrets st)))
         ∧ isFetchingGCP (fst (handleGCPConnect fetch secrets st)) = false)
  end.
Proof.
  unfold handleGCPConnect.
  destruct (SecretsContext.hasSecrets secrets); simpl; [|by left].
  destruct (fetchGCPLogs fetch _ _) as [logs|e]; simpl.
  - destruct logs as [|l logs]; simpl.
    + right. repeat split. eauto.
    + repeat split. discriminate.
  - right. repeat split. eauto.
Qed.

(** X22.  What the user is told.  With secrets: a response outside 200-299
    shows the service's own error text, [GCP API Error (<status>): <body>];
    an empty result shows that the connection worked but no logs were
    found; an error without a message text shows the generic connection
    advice. *)
Theorem connect_messages `{J : JSON} `{E : Engine} (fetch : Fetch)
    (secrets : SecretsContext.State) (st : State) :
  SecretsContext.hasSecrets secrets = true →
  let pid := SecretsContext.projectId secrets in
  let tok := SecretsContext.accessToken secrets in
  (∀ r, fetch entries_list_url (fetchGCPLogs_init pid tok) = Ok r →
        (status r < 200 ∨ 299 < status r)%N →
        gcpError (fst (handleGCPConnect fetch secrets st)) =
          Some ("GCP API Error (" ++ pretty (status r) ++ "): " ++ responseText r))
  ∧ (fetchGCPLogs fetch pid tok = Ok [] →
     gcpError (fst (handleGCPConnect fetch secrets st)) = Some noLogsMessage)
  ∧ (∀ e, fetchGCPLogs fetch pid tok = Throw e → message_of e = "" →
          gcpError (fst (handleGCPConnect fetch secrets st)) = Some connectFallback).
Proof.
  intros Hyes pid tok. unfold handleGCPConnect. rewrite Hyes. simpl.
  split; [|split].
  - intros r Hfetch Hbad.
    fold pid tok. rewrite (fetchGCPLogs_refused fetch pid tok r Hfetch Hbad).
    reflexivity.
  - intros Hnone. fold pid tok. rewrite Hnone. reflexivity.
  - intros e Hfail Hmsg. fold pid tok. rewrite Hfail. simpl. rewrite Hmsg.
    reflexivity.
Qed.

Lemma connect_messages_witness :
  let forbidden := {| status := 403; responseText := "PERMISSION_DENIED" |} in
  let quiet := {| status := 200; responseText := "{}" |} in
  let J' := Samples.table_JSON [("{}", VObj [])] in
  let offline : Fetch := λ _ _, Throw (Rejected "") in
  gcpError (fst (@handleGCPConnect J' MoreSamples.engine (Samples.respond forbidden)
                   MoreSamples.with_secrets initial))
  = Some "GCP API Error (403): PERMISSION_DENIED"
  ∧ gcpError (fst (@handleGCPConnect J' MoreSamples.engine (Samples.respond quiet)
                     MoreSamples.with_secrets initial))
    = Some noLogsMessage
  ∧ gcpError (fst (@handleGCPConnect J' MoreSamples.engine offline
                     MoreSamples.with_secrets initial))
    = Some connectFallback.
Proof.
  intros forbidden quiet J' offline. split; [|split].
  - destruct (@connect_messages J' MoreSamples.engine (Samples.respond forbidden)
                MoreSamples.with_secrets initial eq_refl) as (Herr & _ & _).
    apply (Herr forbidden); [reflexivity | right; simpl; lia].
  - destruct (@connect_messages J' MoreSamples.engine (Samples.respond quiet)
                MoreSamples.with_secrets initial eq_refl) as (_ & Hnone & _).
    apply Hnone. reflexivity.
  - destruct (@connect_messages J' MoreSamples.engine offline
                MoreSamples.with_secrets initial eq_refl) as (_ & _ & Hplain).
    apply (Hplain (Rejected "")); reflexivity.
Defined.

End Uploader.

(** ** The cost dashboard *)

Section Costs.
Import JS GeminiService CostDashboard.

(** X23.  Loading the cost report asks for the project, or for
    [demo-project] when the project id is empty, and always ends with the
    loading flag off.  When the call is rejected or the model's output is
    malformed, the report shown before stays in place; otherwise the parsed
    answer replaces it. *)
Theorem cost_report_failure_keeps_previous `{J : JSON} (ai : GoogleGenAI)
    (projectId : string) (st : State) :
  match generateContent ai
          (generateCostReport_request
             (if String.eqb projectId "" then "demo-project" else projectId)
             (scale st)) with
  | Throw e =>
      loadData ai projectId st =
        {| data := data st; loading := false; scale := scale st |}
  | Ok response =>
      if Spec.malformed response then
        loadData ai projectId st =
          {| data := data st; loading := false; scale := scale st |}
      else
        ∃ report,
          JSON_parse (default "" (text response)) = Some report
          ∧ loadData ai projectId st =
              {| data := report; loading := false; scale := scale st |}
  end.
Proof.
  unfold loadData, generateCostReport. simpl.
  destruct (generateContent ai _) as [response|e]; simpl; [|reflexivity].
  unfold Spec.malformed.
  destruct (no_text response); simpl; [reflexivity|].
  unfold parse.
  destruct (JSON_parse (default "" (text response))) as [report|];
    [eexists; split; reflexivity|reflexivity].
Qed.

End Costs.

(** ** The dashboard figures *)

Section Figures.
Import JS Dashboard Facts.

Implicit Types (logs : list value) (l : value).

Lemma countM_live (f : value → bool) logs :
  Forall live logs →
  countM (λ l, s ← member l "severity"; Ok (f s)) logs =
    Ok (length (filter (λ l, f (lookup_prop l "severity") = true) logs)).
Proof.
  induction 1 as [|l rest Hl _ IH]; [reflexivity|].
  unfold live in Hl.
  cbn [countM]. rewrite (member_live l "severity" Hl). simpl. rewrite IH. simpl.
  destruct (f (lookup_prop l "severity")) eqn:Hf.
  - rewrite filter_cons_True by exact Hf. reflexivity.
  - rewrite filter_cons_False by (rewrite Hf; discriminate). reflexivity.
Qed.

Lemma countM_dead (f : value → bool) logs :
  Exists (λ l, nullish l = true) logs →
  countM (λ l, s ← member l "severity"; Ok (f s)) logs = Throw TypeError.
Proof.
  induction logs as [|l rest IH]; intros Hdead; [by apply Exists_nil in Hdead|].
  cbn [countM]. destruct (nullish l) eqn:Hl.
  - unfold member. rewrite Hl. reflexivity.
  - rewrite (member_live l "severity" Hl). simpl.
    apply Exists_cons in Hdead as [Hd|Hd]; [congruence|].
    rewrite (IH Hd). reflexivity.
Qed.

Lemma count_sev_cons (sev : string) l logs :
  count_sev sev (l :: logs) =
    (if is_str sev (lookup_prop l "severity") then 1 else 0) + count_sev sev logs.
Proof.
  unfold count_sev. destruct (is_str sev (lookup_prop l "severity")) eqn:Hs.
  - rewrite filter_cons_True by exact Hs. reflexivity.
  - rewrite filter_cons_False by (rewrite Hs; discriminate). reflexivity.
Qed.

Lemma count_known_cons l logs :
  count_known (l :: logs) =
    (if Types.is_Severity (lookup_prop l "severity") then 1 else 0) + count_known logs.
Proof.
  unfold count_known. destruct (Types.is_Severity (lookup_prop l "severity")) eqn:Hs.
  - rewrite filter_cons_True by exact Hs. reflexivity.
  - rewrite filter_cons_False by (rewrite Hs; discriminate). reflexivity.
Qed.

(** The eight values of the enum are distinct: a severity matches one of
    them at most. *)
Lemma one_slice_per_entry (s : value) :
  sum_list ((λ sev, if is_str sev s then 1 else 0) <$> Types.Severity) =
    if Types.is_Severity s then 1 else 0.
Proof.
  destruct s as [| | | |x| | |]; try reflexivity.
  unfold Types.is_Severity.
  destruct (decide (x ∈ Types.Severity)) as [Hin|Hout].
  - rewrite bool_decide_eq_true_2 by exact Hin.
    unfold Types.Severity in Hin. rewrite !elem_of_cons, elem_of_nil in Hin.
    destruct Hin as [->|[->|[->|[->|[->|[->|[->|[->|[]]]]]]]]]; reflexivity.
  - rewrite bool_decide_eq_false_2 by exact Hout.
    unfold Types.Severity in *. cbn [fmap list_fmap sum_list is_str].
    repeat match goal with
           | |- context [String.eqb x ?c] =>
               destruct (String.eqb_spec x c) as [->|?];
               [exfalso; apply Hout; rewrite !elem_of_cons; tauto|]
           end.
    reflexivity.
Qed.

Lemma slices_add_up logs :
  sum_list ((λ sev, count_sev sev logs) <$> Types.Severity) = count_known logs.
Proof.
  induction logs as [|l rest IH]; [reflexivity|].
  rewrite count_known_cons, <- IH, <- one_slice_per_entry.
  unfold Types.Severity. simpl. rewrite !count_sev_cons. lia.
Qed.

Lemma sum_positive_only (counted : list (string * nat)) :
  sum_list (snd <$> filter (λ d, 0 < snd d) counted) = sum_list (snd <$> counted).
Proof.
  induction counted as [|[name n] rest IH]; [reflexivity|].
  destruct (decide (0 < n)) as [Hn|Hn].
  - rewrite filter_cons_True by exact Hn. rewrite !fmap_cons.
    cbn [sum_list_with]. rewrite IH. reflexivity.
  - rewrite filter_cons_False by exact Hn. rewrite fmap_cons.
    cbn [sum_list_with]. rewrite IH. simpl in *. lia.
Qed.

Lemma severityData_live logs :
  Forall live logs →
  severityData logs =
    Ok (filter (λ d, 0 < snd d) ((λ sev, (sev, count_sev sev logs)) <$> Types.Severity)).
Proof.
  intros Hlive. unfold severityData, Types.Severity. simpl.
  rewrite !(countM_live _ logs Hlive). reflexivity.
Qed.

(** X24.  The severity chart of logs without [null] entries: one slice per
    enum value that occurs, in enum order and without repetition, each
    sized by the number of entries of exactly that severity and never
    empty.  The slices add up to the number of entries whose severity is
    one of the eight, so entries of any other severity are in no slice
    and the chart may cover fewer entries than the total shown. *)
Theorem severity_chart_counts logs :
  Forall live logs →
  ∃ chart,
    severityData logs = Ok chart
    ∧ sublist (fst <$> chart) Types.Severity
    ∧ Forall (λ d, 0 < snd d ∧ snd d = count_sev (fst d) logs) chart
    ∧ (∀ sev, sev ∈ Types.Severity → 0 < count_sev sev logs →
              (sev, count_sev sev logs) ∈ chart)
    ∧ sum_list (snd <$> chart) = count_known logs
    ∧ (count_known logs ≤ length logs)%nat.
Proof.
  intros Hlive. eexists. split; [apply severityData_live, Hlive|].
  set (counted := (λ sev, (sev, count_sev sev logs)) <$> Types.Severity).
  split; [|split; [|split; [|split]]].
  - transitivity (fst <$> counted).
    + apply fmap_sublist, sublist_filter.
    + unfold counted, Types.Severity. simpl. reflexivity.
  - apply Forall_forall. intros [name n] Hin.
    apply list_elem_of_filter in Hin as [Hpos Hin].
    unfold counted in Hin. apply list_elem_of_fmap in Hin as (sev & [= -> ->] & _).
    split; [exact Hpos|reflexivity].
  - intros sev Hsev Hpos. apply list_elem_of_filter. split; [exact Hpos|].
    unfold counted. apply list_elem_of_fmap. exists sev. split; [reflexivity|exact Hsev].
  - rewrite sum_positive_only. unfold counted.
    rewrite <- list_fmap_compose. apply slices_add_up.
  - unfold count_known. apply length_filter.
Qed.

Lemma five_logs_live : Forall live MoreSamples.five_logs.
Proof. repeat constructor. Qed.

Lemma severity_chart_counts_witness :
  severityData MoreSamples.five_logs =
    Ok [("INFO", 1); ("ERROR", 1); ("ALERT", 1); ("EMERGENCY", 1)]
  ∧ count_known MoreSamples.five_logs = 4
  ∧ length MoreSamples.five_logs = 5.
Proof.
  destruct (severity_chart_counts MoreSamples.five_logs five_logs_live)
    as (chart & Hchart & _ & _ & _ & Hsum & _).
  split; [|split; reflexivity].
  rewrite Hchart. clear Hsum. vm_compute in Hchart.
  injection Hchart as <-. reflexivity.
Defined.

Lemma error_indicator (s : value) :
  (if existsb (λ sev, is_str sev s) ["ERROR"; "CRITICAL"; "ALERT"] then 1 else 0) =
    (if is_str "ERROR" s then 1 else 0) + (if is_str "CRITICAL" s then 1 else 0)
    + (if is_str "ALERT" s then 1 else 0).
Proof.
  destruct s as [| | | |x| | |]; try reflexivity. simpl.
  repeat match goal with
         | |- context [String.eqb x ?c] =>
             destruct (String.eqb_spec x c) as [->|?]; [reflexivity|]
         end.
  reflexivity.
Qed.

Lemma totalErrors_live logs :
  Forall live logs →
  totalErrors logs =
    Ok (count_sev "ERROR" logs + count_sev "CRITICAL" logs + count_sev "ALERT" logs).
Proof.
  intros Hlive. unfold totalErrors.
  rewrite (countM_live (λ s, existsb (λ sev, is_str sev s) ["ERROR"; "CRITICAL"; "ALERT"])
             logs Hlive).
  f_equal. clear Hlive. induction logs as [|l rest IH]; [reflexivity|].
  rewrite !count_sev_cons, <- Nat.add_assoc.
  pose proof (error_indicator (lookup_prop l "severity")) as Hind.
  destruct (existsb _ _) eqn:Hex.
  - rewrite filter_cons_True by exact Hex. cbn [length]. lia.
  - rewrite filter_cons_False by (rewrite Hex; discriminate). lia.
Qed.

Lemma weight_indicator (s : value) :
  (if is_str "ERROR" s || is_str "CRITICAL" s then 1 else 0) =
    (if is_str "ERROR" s then 1 else 0) + (if is_str "CRITICAL" s then 1 else 0).
Proof.
  destruct s as [| | | |x| | |]; try reflexivity. simpl.
  destruct (String.eqb_spec x "ERROR") as [->|?]; [reflexivity|].
  destruct (String.eqb x "CRITICAL"); reflexivity.
Qed.

Lemma timeDataFrom_live (i : nat) logs :
  Forall live logs →
  timeDataFrom i logs = Ok (imap (λ j l, (i + j, severityVal l)) logs).
Proof.
  intros Hlive. revert i.
  induction Hlive as [|l rest Hl _ IH]; intros i; [reflexivity|].
  unfold live in Hl.
  rewrite imap_cons.
  rewrite (imap_ext _ (λ j l', (S i + j, severityVal l')))
    by (intros; simpl; f_equal; lia).
  cbn [timeDataFrom]. rewrite (member_live l "severity" Hl). simpl.
  rewrite (IH (S i)). simpl. rewrite Nat.add_0_r. reflexivity.
Qed.

Lemma timeline_tens (i : nat) logs :
  length (filter (λ p, snd p = 10) (imap (λ j l, (i + j, severityVal l)) logs)) =
    count_sev "ERROR" logs + count_sev "CRITICAL" logs.
Proof.
  revert i. induction logs as [|l rest IH]; intros i; [reflexivity|].
  rewrite imap_cons, !count_sev_cons.
  rewrite (imap_ext _ (λ j l', (S i + j, severityVal l'))) by (intros; simpl; f_equal; lia).
  specialize (IH (S i)).
  pose proof (weight_indicator (lookup_prop l "severity")) as Hind.
  unfold severityVal at 1.
  destruct (is_str "ERROR" _ || is_str "CRITICAL" _).
  - rewrite filter_cons_True by reflexivity. cbn [length]. lia.
  - rewrite filter_cons_False by (cbn [snd]; discriminate). lia.
Qed.

(** X25.  The error figures of logs without [null] entries.  The headline
    count is the number of ERROR, CRITICAL and ALERT entries.  The timeline
    has one point per entry, in order: the point of the entry at index [i]
    is [(i, 10)] when that entry is ERROR or CRITICAL and [(i, 1)]
    otherwise.  So the number of points weighted 10 is the number of ERROR
    and CRITICAL entries: an ALERT entry raises the headline count but not
    the timeline, and an EMERGENCY entry raises neither. *)
Theorem error_figures logs :
  Forall live logs →
  totalErrors logs =
    Ok (count_sev "ERROR" logs + count_sev "CRITICAL" logs + count_sev "ALERT" logs)
  ∧ timeData logs = Ok (imap (λ i l, (i, severityVal l)) logs)
  ∧ (∀ i l, logs !! i = Some l →
            imap (λ i l, (i, severityVal l)) logs !! i =
              Some (i, if is_str "ERROR" (lookup_prop l "severity")
                          || is_str "CRITICAL" (lookup_prop l "severity")
                       then 10 else 1))
  ∧ length (imap (λ i l, (i, severityVal l)) logs) = length logs
  ∧ length (filter (λ p, snd p = 10) (imap (λ i l, (i, severityVal l)) logs)) =
      count_sev "ERROR" logs + count_sev "CRITICAL" logs.
Proof.
  intros Hlive. split; [apply totalErrors_live, Hlive|].
  split; [|split; [|split]].
  - unfold timeData. rewrite (timeDataFrom_live 0 logs Hlive). reflexivity.
  - intros i l Hl. rewrite list_lookup_imap, Hl. reflexivity.
  - apply length_imap.
  - apply (timeline_tens 0).
Qed.

Lemma error_figures_witness :
  totalErrors MoreSamples.five_logs = Ok 2
  ∧ timeData MoreSamples.five_logs = Ok [(0, 1); (1, 10); (2, 1); (3, 1); (4, 1)].
Proof.
  destruct (error_figures MoreSamples.five_logs five_logs_live)
    as (Htotal & Hpoints & _).
  split; [exact Htotal|exact Hpoints].
Defined.

Lemma timeDataFrom_dead (i : nat) logs :
  Exists (λ l, nullish l = true) logs → timeDataFrom i logs = Throw TypeError.
Proof.
  revert i. induction logs as [|l rest IH]; intros i Hdead.
  { by apply Exists_nil in Hdead. }
  cbn [timeDataFrom]. destruct (nullish l) eqn:Hl.
  - unfold member. rewrite Hl. reflexivity.
  - rewrite (member_live l "severity" Hl). simpl.
    apply Exists_cons in Hdead as [Hd|Hd]; [congruence|].
    rewrite (IH (S i) Hd). reflexivity.
Qed.

(** X26.  One [null] entry among the logs makes all three figures fail
    with a TypeError: nothing is charted for the entries that are fine. *)
Theorem figures_fail_on_null_entry logs :
  Exists (λ l, nullish l = true) logs →
  severityData logs = Throw TypeError
  ∧ timeData logs = Throw TypeError
  ∧ totalErrors logs = Throw TypeError.
Proof.
  intros Hdead. split; [|split].
  - unfold severityData, Types.Severity. cbn [mapM].
    rewrite (countM_dead _ logs Hdead). reflexivity.
  - apply timeDataFrom_dead, Hdead.
  - unfold totalErrors.
    apply (countM_dead (λ s, existsb (λ sev, is_str sev s) ["ERROR"; "CRITICAL"; "ALERT"])),
      Hdead.
Qed.

Lemma figures_fail_on_null_entry_witness :
  severityData (MoreSamples.five_logs ++ [VNull])%list = Throw TypeError
  ∧ timeData (MoreSamples.five_logs ++ [VNull])%list = Throw TypeError
  ∧ totalErrors (MoreSamples.five_logs ++ [VNull])%list = Throw TypeError.
Proof.
  apply (figures_fail_on_null_entry (MoreSamples.five_logs ++ [VNull])%list).
  apply Exists_app. right. apply Exists_cons_hd. reflexivity.
Defined.

End Figures.
